(** * Vintel cache engine: a shallow embedding of [vi/cache/cache.py]

    The development follows the module top to bottom: the Python values the
    cache handles, the part of SQLite the statements of the module rely on,
    [CacheBase] (schema migration and sweep) and [NewCache] (key
    construction, expiry resolution, the value codec and the
    get/set/delete surface), then the properties of the engine.  Two users
    of the engine follow the definitions: the [conn] property of an
    accessor and the [Settings] class of [vi/settings.py].

    Modelling conventions.
    - A connection is modelled by the contents it sees: the two tables the
      module creates.  Statements run in the order the source issues them;
      [commit], [close] and the write lock are not represented
      (one thread, one connection).
    - A Python exception is a value of [exn]; an operation that touches the
      store returns its outcome together with the store it leaves behind.
    - [utcnow] returns a float holding whole seconds; it is passed in as
      the integer [now], and a sum [now + expires], a float in the source,
      keeps its integral value.
    - A Python integer bound to a statement must fit SQLite's 64 bits:
      [cursor_execute] raises [OverflowError] otherwise, after the statement
      is prepared and before it runs.  A float is bound without such a
      check. *)

From Stdlib Require Import ZArith String List Ascii Bool Lia.
From Stdlib Require Import DecimalString DecimalZ.
From Stdlib.Strings Require Import Byte.
Import ListNotations.
Open Scope string_scope.
Open Scope Z_scope.
Open Scope list_scope.
Set Warnings "-register-all".

(** ** Python values *)

Definition bytes := list byte.

(** Values handed to the cache: integers, text and structured objects. *)
Inductive pyval :=
| PyNone
| PyInt (z : Z)
| PyStr (s : string)
| PyList (l : list pyval)
| PyTuple (l : list pyval)
| PyDict (items : list (pyval * pyval)).

(** Keys, prefixes and sections: [None], an integer or text. *)
Inductive atom :=
| ANone
| AInt (z : Z)
| AStr (s : string).

Definition atom_val (a : atom) : pyval :=
  match a with
  | ANone => PyNone
  | AInt z => PyInt z
  | AStr s => PyStr s
  end.

Definition is_not_None (a : atom) : bool :=
  match a with
  | ANone => false
  | _ => true
  end.

(** [str(z)] for an integer: its decimal rendering. *)
Definition str_int (z : Z) : string := NilZero.string_of_int (Z.to_int z).

(** [str(x)] *)
Definition str (a : atom) : string :=
  match a with
  | ANone => "None"
  | AInt z => str_int z
  | AStr s => s
  end.

(** [s[n:]] *)
Fixpoint slice_from (n : nat) (s : string) : string :=
  match n, s with
  | O, _ => s
  | S _, EmptyString => EmptyString
  | S m, String _ t => slice_from m t
  end.

(** Python equality between atoms: an integer never equals a text. *)
Definition atom_eqb (a b : atom) : bool :=
  match a, b with
  | ANone, ANone => true
  | AInt x, AInt y => x =? y
  | AStr x, AStr y => String.eqb x y
  | _, _ => false
  end.

(** A [dict] keyed by atoms, in insertion order; [d[k] = v]. *)
Definition pydict := list (atom * pyval).

Fixpoint dict_set (d : pydict) (k : atom) (v : pyval) : pydict :=
  match d with
  | [] => [(k, v)]
  | (k', v') :: t => if atom_eqb k' k then (k', v) :: t else (k', v') :: dict_set t k v
  end.

(** [k in d] *)
Definition dict_contains (k : atom) (d : pydict) : bool :=
  existsb (fun kv => atom_eqb (fst kv) k) d.

(** ** Exceptions and outcomes *)

Inductive exn :=
| ValueError (msg : string)
| TypeError
| IndexError
| RecursionError
| OperationalError (msg : string)
| IntegrityError (msg : string)
| OverflowError
| UnpicklingError.

Inductive result (A : Type) :=
| Ok (a : A)
| Raise (e : exn).
Arguments Ok {A} a.
Arguments Raise {A} e.

(** ** The store *)

Inductive sqlval :=
| SNull
| SInt (z : Z)
| SText (s : string)
| SBlob (b : bytes).

(** One row of [cache]; the fields are the columns of the [CREATE TABLE]
    statement in [CacheBase.UPDATES]. *)
Record row := mkRow {
  r_key : string;
  r_blobdata : option bytes;
  r_intdata : option Z;
  r_stringdata : option string;
  r_expires : Z
}.

(** [None] for a table that has not been created. *)
Record database := mkDb {
  version_table : option (list Z);
  cache_table : option (list row)
}.

Inductive affinity := AffText | AffInteger | AffBlob.

Definition nullable {A : Type} (f : A -> sqlval) (o : option A) : sqlval :=
  match o with
  | Some a => f a
  | None => SNull
  end.

(** Column resolution against the declared columns of [cache]:
    [key VARCHAR, blobdata BLOB, intdata INT, stringdata VARCHAR, expires INT]. *)
Definition cache_column (name : string) : option (affinity * (row -> sqlval)) :=
  if String.eqb name "key" then Some (AffText, fun r => SText (r_key r))
  else if String.eqb name "blobdata" then Some (AffBlob, fun r => nullable SBlob (r_blobdata r))
  else if String.eqb name "intdata" then Some (AffInteger, fun r => nullable SInt (r_intdata r))
  else if String.eqb name "stringdata" then Some (AffText, fun r => nullable SText (r_stringdata r))
  else if String.eqb name "expires" then Some (AffInteger, fun r => SInt (r_expires r))
  else None.

(** The column's affinity applied to a bound operand before a comparison: a
    number compared with a text column is compared as its decimal text.  No
    statement of the module binds text against a numeric column, so that
    direction is left as it is. *)
Definition apply_affinity (a : affinity) (p : sqlval) : sqlval :=
  match a, p with
  | AffText, SInt z => SText (str_int z)
  | _, _ => p
  end.

Fixpoint bytes_compare (a b : bytes) : comparison :=
  match a, b with
  | [], [] => Eq
  | [], _ :: _ => Lt
  | _ :: _, [] => Gt
  | x :: a', y :: b' =>
      match N.compare (Byte.to_N x) (Byte.to_N y) with
      | Eq => bytes_compare a' b'
      | c => c
      end
  end.

(** Comparison of two values; [None] when either is NULL.  Across storage
    classes: integer < text < blob. *)
Definition sql_compare (x y : sqlval) : option comparison :=
  match x, y with
  | SNull, _ => None
  | _, SNull => None
  | SInt a, SInt b => Some (Z.compare a b)
  | SInt _, _ => Some Lt
  | SText _, SInt _ => Some Gt
  | SText a, SText b => Some (String.compare a b)
  | SText _, SBlob _ => Some Lt
  | SBlob a, SBlob b => Some (bytes_compare a b)
  | SBlob _, _ => Some Gt
  end.

Definition sql_eq (x y : sqlval) : bool :=
  match sql_compare x y with
  | Some Eq => true
  | _ => false
  end.

Definition sql_lt (x y : sqlval) : bool :=
  match sql_compare x y with
  | Some Lt => true
  | _ => false
  end.

Definition sql_le (x y : sqlval) : bool :=
  match sql_compare x y with
  | Some Lt => true
  | Some Eq => true
  | _ => false
  end.

(** The [WHERE] clauses the module writes. *)
Inductive where_clause :=
| WEq (col : string) (p : sqlval)
| WIn (col : string) (ps : list sqlval)
| WLt (col : string) (p : sqlval)
| WLe (col : string) (p : sqlval)
| WAnd (a b : where_clause).

Definition no_such_column (col : string) : exn :=
  OperationalError ("no such column: " ++ col)%string.

Definition with_column (col : string) (test : sqlval -> sqlval -> bool) (p : sqlval)
  : result (row -> bool) :=
  match cache_column col with
  | Some (aff, proj) => Ok (fun r => test (proj r) (apply_affinity aff p))
  | None => Raise (no_such_column col)
  end.

(** Preparing a clause resolves its column names; an unknown name is an
    [OperationalError] whatever the table holds. *)
Fixpoint prepare (w : where_clause) : result (row -> bool) :=
  match w with
  | WEq col p => with_column col sql_eq p
  | WIn col ps =>
      match cache_column col with
      | Some (aff, proj) =>
          Ok (fun r => existsb (fun p => sql_eq (proj r) (apply_affinity aff p)) ps)
      | None => Raise (no_such_column col)
      end
  | WLt col p => with_column col sql_lt p
  | WLe col p => with_column col sql_le p
  | WAnd a b =>
      match prepare a with
      | Ok fa =>
          match prepare b with
          | Ok fb => Ok (fun r => fa r && fb r)
          | Raise e => Raise e
          end
      | Raise e => Raise e
      end
  end.

Definition no_such_table (name : string) : exn :=
  OperationalError ("no such table: " ++ name)%string.

(** [SELECT ... FROM cache WHERE w] *)
Definition select_cache (w : where_clause) (db : database) : result (list row) :=
  match cache_table db with
  | None => Raise (no_such_table "cache")
  | Some rows =>
      match prepare w with
      | Ok f => Ok (filter f rows)
      | Raise e => Raise e
      end
  end.

(** [DELETE FROM cache WHERE w] *)
Definition delete_cache (w : where_clause) (db : database) : result unit * database :=
  match cache_table db with
  | None => (Raise (no_such_table "cache"), db)
  | Some rows =>
      match prepare w with
      | Ok f =>
          (Ok tt, mkDb (version_table db) (Some (filter (fun r => negb (f r)) rows)))
      | Raise e => (Raise e, db)
      end
  end.

Definition has_key (k : string) (rows : list row) : bool :=
  existsb (fun r => String.eqb (r_key r) k) rows.

(** [INSERT INTO cache (key, expires, blobdata, intdata, stringdata) VALUES ...];
    [key] is the primary key. *)
Definition insert_cache (r : row) (db : database) : result unit * database :=
  match cache_table db with
  | None => (Raise (no_such_table "cache"), db)
  | Some rows =>
      if has_key (r_key r) rows
      then (Raise (IntegrityError "UNIQUE constraint failed: cache.key"), db)
      else (Ok tt, mkDb (version_table db) (Some (rows ++ [r])))
  end.

(** Operations on the store thread it and may raise. *)
Definition M (A : Type) : Type := database -> result A * database.

Definition ret {A : Type} (a : A) : M A := fun db => (Ok a, db).

Definition raise {A : Type} (e : exn) : M A := fun db => (Raise e, db).

Definition bind {A B : Type} (m : M A) (k : A -> M B) : M B :=
  fun db =>
    match m db with
    | (Ok a, db') => k a db'
    | (Raise e, db') => (Raise e, db')
    end.

Notation "x <- m ;; k" := (bind m (fun x => k))
  (at level 61, m at next level, right associativity).
Notation "m ;;; k" := (bind m (fun _ => k))
  (at level 61, right associativity).

(** ** CacheBase *)

Inductive statement :=
| CREATE_TABLE_version
| INSERT_INTO_version (v : Z)
| CREATE_TABLE_cache
| UPDATE_version_SET (v : Z)
| DELETE_FROM_cache_WHERE (w : where_clause)
| INSERT_INTO_cache (r : row).

Definition already_exists (name : string) : exn :=
  OperationalError ("table " ++ name ++ " already exists")%string.

(** [cursor.execute(query)] *)
Definition execute (q : statement) : M unit :=
  fun db =>
    match q with
    | CREATE_TABLE_version =>
        match version_table db with
        | Some _ => (Raise (already_exists "version"), db)
        | None => (Ok tt, mkDb (Some []) (cache_table db))
        end
    | INSERT_INTO_version v =>
        match version_table db with
        | Some vs => (Ok tt, mkDb (Some (vs ++ [v])) (cache_table db))
        | None => (Raise (no_such_table "version"), db)
        end
    | CREATE_TABLE_cache =>
        match cache_table db with
        | Some _ => (Raise (already_exists "cache"), db)
        | None => (Ok tt, mkDb (version_table db) (Some []))
        end
    | UPDATE_version_SET v =>
        match version_table db with
        | Some vs => (Ok tt, mkDb (Some (map (fun _ => v) vs)) (cache_table db))
        | None => (Raise (no_such_table "version"), db)
        end
    | DELETE_FROM_cache_WHERE w => delete_cache w db
    | INSERT_INTO_cache r => insert_cache r db
    end.

(** [for query in queries: cursor.execute(query)] *)
Fixpoint execute_all (qs : list statement) : M unit :=
  match qs with
  | [] => ret tt
  | q :: rest => execute q ;;; execute_all rest
  end.

(** The integers SQLite stores: 64 bits, signed. *)
Definition fits_int64 (z : Z) : bool :=
  (- 2 ^ 63 <=? z) && (z <=? 2 ^ 63 - 1).

(** What preparing a statement raises: a table or a column that does not
    exist. *)
Definition preparation_error (q : statement) (db : database) : option exn :=
  match q with
  | DELETE_FROM_cache_WHERE w =>
      match cache_table db with
      | None => Some (no_such_table "cache")
      | Some _ =>
          match prepare w with
          | Raise e => Some e
          | Ok _ => None
          end
      end
  | INSERT_INTO_cache _ =>
      match cache_table db with
      | None => Some (no_such_table "cache")
      | Some _ => None
      end
  | _ => None
  end.

(** [cursor.execute(query, parameters)] where [ints] are the Python integers
    among the parameters: the statement is prepared, the parameters are
    bound, and then the statement runs. *)
Definition cursor_execute (q : statement) (ints : list Z) : M unit :=
  fun db =>
    match preparation_error q db with
    | Some e => (Raise e, db)
    | None =>
        if forallb fits_int64 ints
        then execute q db
        else (Raise OverflowError, db)
    end.

(** [cursor.executemany(query, parameters)], one binding and one run per
    tuple of parameters. *)
Fixpoint executemany (qs : list (statement * list Z)) : M unit :=
  match qs with
  | [] => ret tt
  | (q, ints) :: rest => cursor_execute q ints ;;; executemany rest
  end.

Definition UPDATES : list (Z * list statement) :=
  [ (1, [ CREATE_TABLE_version; INSERT_INTO_version 0; CREATE_TABLE_cache ]) ].

Definition CURRENT_VERSION : Z := 1.

(** The probe at the head of [check_version]: the first row of [version];
    a missing table and an empty table both leave [version = 0]. *)
Definition recorded_version (db : database) : Z :=
  match version_table db with
  | None => 0
  | Some [] => 0
  | Some (v :: _) => v
  end.

(** The loop that gathers the statements of the patch sets to apply. *)
Fixpoint pending (updates : list (Z * list statement)) (version : Z) : list statement :=
  match updates with
  | [] => []
  | (patchlevel, statements) :: rest =>
      if version <? patchlevel
      then statements ++ pending rest version
      else pending rest version
  end.

Definition cleanup (now : Z) : M unit :=
  execute (DELETE_FROM_cache_WHERE (WLt "expires" (SInt now))).

Definition check_version (now : Z) : M unit :=
  fun db =>
    let version := recorded_version db in
    let queries := pending UPDATES version in
    (execute_all queries ;;;
     (if negb (version =? CURRENT_VERSION)
      then execute (UPDATE_version_SET CURRENT_VERSION)
      else ret tt) ;;;
     cleanup now) db.

(** The tables a store has. *)
Definition schema (db : database) : bool * bool :=
  (match version_table db with Some _ => true | None => false end,
   match cache_table db with Some _ => true | None => false end).

(** A store file that has just been created. *)
Definition fresh : database := mkDb None None.

(** ** The interpreter and the pickle module

    [six.PY2] picks the definitions of [to_blob] and [from_blob] when the
    module is loaded; [pickle] is a library the module calls. *)
Class Runtime := {
  PY2 : bool;
  pickle_dumps : pyval -> bytes;
  pickle_loads : bytes -> result pyval
}.

(** ** NewCache *)

(** The [expires] argument: the sentinel [DEFAULT_EXPIRES] or a number. *)
Inductive expiry :=
| DEFAULT_EXPIRES
| Expires (e : Z).

(** The [default] argument of [get]: the sentinel [NO_DEFAULT] or a value. *)
Inductive default_arg :=
| NO_DEFAULT
| Default (v : pyval).

(** The attributes [__init__] stores on an accessor.  [override_path] only
    selects the file, which the model passes explicitly. *)
Record NewCache := mkNewCache {
  _expires : expiry;
  _key_prefix : atom
}.

Definition fields : Type := option bytes * option Z * option string.

Definition week : Z := 60 * 60 * 24 * 7.

(** The value a Python key is bound as. *)
Definition bind_atom (a : atom) : sqlval :=
  match a with
  | ANone => SNull
  | AInt z => SInt z
  | AStr s => SText s
  end.

(** The Python integers bound with a key. *)
Definition atom_ints (a : atom) : list Z :=
  match a with
  | AInt z => [z]
  | _ => []
  end.

(** The Python integers bound with the row of an [INSERT]: the expiry when
    it is kept as passed ([expires > week]; otherwise [now + expires] is a
    float), and the value of the integer column. *)
Definition row_ints (expires : Z) (r : row) : list Z :=
  (if expires >? week then [expires] else [])
  ++ match r_intdata r with
     | Some i => [i]
     | None => []
     end.

Section Accessor.
Context {R : Runtime}.

(** Under [six.PY2], [buffer(str(x))]: the same bytes in a buffer. *)
Definition to_blob (x : bytes) : bytes :=
  if PY2 then x else x.

(** Under [six.PY2], [str(x[0][0])]: indexing a buffer gives its first
    byte as a one-character string, and indexing that gives it again. *)
Definition from_blob (x : bytes) : result bytes :=
  if PY2
  then match x with
       | [] => Raise IndexError
       | b :: _ => Ok [b]
       end
  else Ok x.

Definition _get_key (self : NewCache) (key : atom) (section : atom) : string :=
  String.concat ":" (map str (filter is_not_None [_key_prefix self; section; key])).

Definition _reverse_key (self : NewCache) (key : string) (section : atom) : string :=
  slice_from (String.length (_get_key self (AStr "") section)) key.

Definition _get_expiry (self : NewCache) (expires : expiry) : result Z :=
  match expires with
  | Expires e => Ok e
  | DEFAULT_EXPIRES =>
      match _expires self with
      | DEFAULT_EXPIRES => Raise (ValueError "No expiry set and no default expires set")
      | Expires e => Ok e
      end
  end.

Definition to_python (f : fields) : result pyval :=
  let '(blobdata, intdata, stringdata) := f in
  match intdata with
  | Some i => Ok (PyInt i)
  | None =>
      match stringdata with
      | Some s => Ok (PyStr s)
      | None =>
          match blobdata with
          | None => Raise TypeError
          | Some b =>
              match from_blob b with
              | Ok b' => pickle_loads b'
              | Raise e => Raise e
              end
          end
      end
  end.

Definition from_python (obj : pyval) : fields :=
  match obj with
  | PyInt z => (None, Some z, None)
  | PyStr s => (None, None, Some s)
  | _ => (Some (to_blob (pickle_dumps obj)), None, None)
  end.

Definition row_fields (r : row) : fields :=
  (r_blobdata r, r_intdata r, r_stringdata r).

Definition get (self : NewCache) (key : atom) (default : default_arg) (section : atom)
    (allowExpired : bool) (now : Z) (db : database) : result pyval :=
  let key := _get_key self key section in
  let query :=
    if allowExpired
    then WAnd (WEq "key" (SText key)) (WLe "expired" (SInt now))
    else WEq "key" (SText key) in
  match select_cache query db with
  | Raise e => Raise e
  | Ok (r :: _) => to_python (row_fields r)
  | Ok [] =>
      Ok (match default with
          | NO_DEFAULT => PyNone
          | Default d => d
          end)
  end.

(** The loop of [get_many] over the rows the query returns. *)
Fixpoint collect (self : NewCache) (section : atom) (rows : list row) (data : pydict)
  : result pydict :=
  match rows with
  | [] => Ok data
  | r :: rest =>
      let key := _reverse_key self (r_key r) section in
      match to_python (row_fields r) with
      | Ok v => collect self section rest (dict_set data (AStr key) v)
      | Raise e => Raise e
      end
  end.

(** Rows are taken in the order of the table; the result is a [dict], to
    which the order makes no difference. *)
Definition get_many (self : NewCache) (keys : list atom) (section : atom)
    (allowExpired : bool) (now : Z) (db : database) : result pydict :=
  let seq := map (fun key => SText (_get_key self key section)) keys in
  let query :=
    if allowExpired
    then WAnd (WIn "key" seq) (WLt "expired" (SInt now))
    else WIn "key" seq in
  match select_cache query db with
  | Raise e => Raise e
  | Ok rows => collect self section rows []
  end.

(** [expires if expires > (60*60*24*7) else now + expires] *)
Definition resolve (now expires : Z) : Z :=
  if expires >? week then expires else now + expires.

(** The tuple [(self._get_key(key, section), expires) + self.from_python(value)]. *)
Definition parameters (self : NewCache) (key : atom) (value : pyval) (expires : Z)
    (section : atom) : row :=
  let '(blobdata, intdata, stringdata) := from_python value in
  mkRow (_get_key self key section) blobdata intdata stringdata expires.

Definition set (self : NewCache) (key : atom) (value : pyval) (expires : expiry)
    (section : atom) (now : Z) : M unit :=
  match _get_expiry self expires with
  | Raise e => raise e
  | Ok expires =>
      let resolved := resolve now expires in
      let parameters := parameters self key value resolved section in
      cursor_execute (DELETE_FROM_cache_WHERE (WEq "key" (bind_atom key)))
        (atom_ints key) ;;;
      cursor_execute (INSERT_INTO_cache parameters) (row_ints expires parameters)
  end.

Definition set_many (self : NewCache) (data : pydict) (expires : expiry)
    (section : atom) (now : Z) : M unit :=
  match _get_expiry self expires with
  | Raise e => raise e
  | Ok expires =>
      let resolved := resolve now expires in
      let parameters :=
        map (fun kv => parameters self (fst kv) (snd kv) resolved section) data in
      cursor_execute
        (DELETE_FROM_cache_WHERE (WIn "key" (map (fun kv => bind_atom (fst kv)) data)))
        (flat_map (fun kv => atom_ints (fst kv)) data) ;;;
      executemany (map (fun p => (INSERT_INTO_cache p, row_ints expires p)) parameters)
  end.

(** [delete] calls itself on [[key]]; [depth] is the number of frames the
    interpreter still allows (its recursion limit). *)
Fixpoint delete (depth : nat) (self : NewCache) (key : pyval) (section : atom) : M unit :=
  match depth with
  | O => raise RecursionError
  | S depth' => delete depth' self (PyList [key]) section
  end.

Definition delete_many (self : NewCache) (keys : list atom) (section : atom) : M unit :=
  execute (DELETE_FROM_cache_WHERE
             (WIn "key" (map (fun key => SText (_get_key self key section)) keys))).

End Accessor.

(** ** A serializer to run the codec with

    The codec is stated over any [pickle]; this one, a tagged prefix
    format, is the instance the examples are evaluated with. *)
Module Pickle.
Local Open Scope byte_scope.

(** A count, in unary. *)
Fixpoint write_nat (n : nat) : bytes :=
  match n with
  | O => [x00]
  | S m => x01 :: write_nat m
  end.

Fixpoint read_nat (b : bytes) : option (nat * bytes) :=
  match b with
  | [] => None
  | c :: rest =>
      if Byte.eqb c x00 then Some (O, rest)
      else if Byte.eqb c x01 then
        match read_nat rest with
        | Some (n, rest') => Some (S n, rest')
        | None => None
        end
      else None
  end.

(** Text, preceded by its length. *)
Definition write_text (s : string) : bytes :=
  let bs := list_byte_of_string s in
  write_nat (length bs) ++ bs.

Definition read_text (b : bytes) : option (string * bytes) :=
  match read_nat b with
  | Some (n, rest) =>
      if (length rest <? n)%nat then None
      else Some (string_of_list_byte (firstn n rest), skipn n rest)
  | None => None
  end.

Definition int_of_text (s : string) : option Z :=
  option_map Z.of_int (NilZero.int_of_string s).

Definition tag_None : byte := "N".
Definition tag_Int : byte := "I".
Definition tag_Str : byte := "S".
Definition tag_List : byte := "L".
Definition tag_Tuple : byte := "T".
Definition tag_Dict : byte := "D".

Fixpoint dump (v : pyval) : bytes :=
  match v with
  | PyNone => [tag_None]
  | PyInt z => tag_Int :: write_text (str_int z)
  | PyStr s => tag_Str :: write_text s
  | PyList l => tag_List :: write_nat (length l) ++ flat_map dump l
  | PyTuple l => tag_Tuple :: write_nat (length l) ++ flat_map dump l
  | PyDict items =>
      tag_Dict ::
        write_nat (length items)
        ++ flat_map (fun kv : pyval * pyval => let (k, w) := kv in dump k ++ dump w) items
  end.

Section Items.
Variable load1 : bytes -> option (pyval * bytes).

Fixpoint load_items (n : nat) (b : bytes) : option (list pyval * bytes) :=
  match n with
  | O => Some (nil, b)
  | S m =>
      match load1 b with
      | Some (v, b') =>
          match load_items m b' with
          | Some (vs, b'') => Some (v :: vs, b'')
          | None => None
          end
      | None => None
      end
  end.

Fixpoint load_pairs (n : nat) (b : bytes) : option (list (pyval * pyval) * bytes) :=
  match n with
  | O => Some (nil, b)
  | S m =>
      match load1 b with
      | Some (k, b1) =>
          match load1 b1 with
          | Some (w, b2) =>
              match load_pairs m b2 with
              | Some (kvs, b3) => Some ((k, w) :: kvs, b3)
              | None => None
              end
          | None => None
          end
      | None => None
      end
  end.

End Items.

Fixpoint load (fuel : nat) (b : bytes) : option (pyval * bytes) :=
  match fuel with
  | O => None
  | S fuel' =>
      match b with
      | [] => None
      | c :: rest =>
          if Byte.eqb c tag_None then Some (PyNone, rest)
          else if Byte.eqb c tag_Int then
            match read_text rest with
            | Some (s, rest') =>
                match int_of_text s with
                | Some z => Some (PyInt z, rest')
                | None => None
                end
            | None => None
            end
          else if Byte.eqb c tag_Str then
            match read_text rest with
            | Some (s, rest') => Some (PyStr s, rest')
            | None => None
            end
          else if Byte.eqb c tag_List then
            match read_nat rest with
            | Some (n, rest') =>
                match load_items (load fuel') n rest' with
                | Some (l, rest'') => Some (PyList l, rest'')
                | None => None
                end
            | None => None
            end
          else if Byte.eqb c tag_Tuple then
            match read_nat rest with
            | Some (n, rest') =>
                match load_items (load fuel') n rest' with
                | Some (l, rest'') => Some (PyTuple l, rest'')
                | None => None
                end
            | None => None
            end
          else if Byte.eqb c tag_Dict then
            match read_nat rest with
            | Some (n, rest') =>
                match load_pairs (load fuel') n rest' with
                | Some (items, rest'') => Some (PyDict items, rest'')
                | None => None
                end
            | None => None
            end
          else None
      end
  end.

Definition dumps (v : pyval) : bytes := dump v.

(** Every call of [load] consumes a byte, so the length of the input
    bounds the depth it needs. *)
Definition loads (b : bytes) : result pyval :=
  match load (length b) b with
  | Some (v, []) => Ok v
  | _ => Raise UnpicklingError
  end.

End Pickle.


(** The module as Python 3 loads it, and as Python 2 does. *)
Definition Python3 : Runtime :=
  {| PY2 := false; pickle_dumps := Pickle.dumps; pickle_loads := Pickle.loads |}.

Definition Python2 : Runtime :=
  {| PY2 := true; pickle_dumps := Pickle.dumps; pickle_loads := Pickle.loads |}.

(** ** Vocabulary of the properties *)

(** A store after its first [check_version]. *)
Definition opened (now : Z) : database := snd (check_version now fresh).

(** How many of the three value columns are non-null. *)
Definition non_null {A : Type} (o : option A) : nat :=
  match o with
  | Some _ => 1
  | None => 0
  end.

Definition non_null_count (f : fields) : nat :=
  let '(blobdata, intdata, stringdata) := f in
  (non_null blobdata + non_null intdata + non_null stringdata)%nat.

Definition one_of_three (r : row) : Prop := non_null_count (row_fields r) = 1%nat.

Definition MissingExpiry : exn := ValueError "No expiry set and no default expires set".

(** The rows a connection sees. *)
Definition rows (db : database) : list row :=
  match cache_table db with
  | Some l => l
  | None => []
  end.

(** An invariant of the store kept by a computation, whatever its outcome. *)
Definition preserves {A : Type} (I : database -> Prop) (m : M A) : Prop :=
  forall db, I db -> I (snd (m db)).

(** At most one row per key. *)
Definition unique_keys (db : database) : Prop := NoDup (map r_key (rows db)).


(** What the parser of the serializer instance owes on the encoding of [v]. *)
Definition loads_back (v : pyval) : Prop :=
  forall fuel rest,
    (length (Pickle.dump v) <= fuel)%nat ->
    Pickle.load fuel (Pickle.dump v ++ rest) = Some (v, rest).

(** Decides the tag tests of [load] on a known tag. *)
Ltac step_tags :=
  repeat match goal with
         | |- context [Byte.eqb ?a ?b] =>
             let r := eval vm_compute in (Byte.eqb a b) in
             change (Byte.eqb a b) with r
         end;
  cbv iota.

(** Induction over values that reaches the elements of containers. *)
Section pyval_induction.
Variable P : pyval -> Prop.
Hypothesis HNone : P PyNone.
Hypothesis HInt : forall z, P (PyInt z).
Hypothesis HStr : forall s, P (PyStr s).
Hypothesis HList : forall l, Forall P l -> P (PyList l).
Hypothesis HTuple : forall l, Forall P l -> P (PyTuple l).
Hypothesis HDict :
  forall items, Forall (fun kv => P (fst kv) /\ P (snd kv)) items -> P (PyDict items).

Fixpoint pyval_nested_ind (v : pyval) : P v :=
  match v with
  | PyNone => HNone
  | PyInt z => HInt z
  | PyStr s => HStr s
  | PyList l =>
      HList l ((fix go (l : list pyval) : Forall P l :=
                  match l with
                  | [] => Forall_nil P
                  | x :: t => Forall_cons x (pyval_nested_ind x) (go t)
                  end) l)
  | PyTuple l =>
      HTuple l ((fix go (l : list pyval) : Forall P l :=
                   match l with
                   | [] => Forall_nil P
                   | x :: t => Forall_cons x (pyval_nested_ind x) (go t)
                   end) l)
  | PyDict items =>
      HDict items
        ((fix go (l : list (pyval * pyval))
            : Forall (fun kv => P (fst kv) /\ P (snd kv)) l :=
            match l with
            | [] => Forall_nil _
            | (k, w) :: t =>
                Forall_cons (k, w) (conj (pyval_nested_ind k) (pyval_nested_ind w)) (go t)
            end) items)
  end.

End pyval_induction.

(** The two statements of [set], and those of [set_many], as they run once
    their parameters are bound. *)
Definition set_run {R : Runtime} (self : NewCache) (key : atom) (value : pyval)
    (e : Z) (section : atom) (now : Z) : M unit :=
  execute (DELETE_FROM_cache_WHERE (WEq "key" (bind_atom key))) ;;;
  execute (INSERT_INTO_cache (parameters self key value (resolve now e) section)).

Definition set_many_run {R : Runtime} (self : NewCache) (data : pydict)
    (e : Z) (section : atom) (now : Z) : M unit :=
  execute (DELETE_FROM_cache_WHERE (WIn "key" (map (fun kv => bind_atom (fst kv)) data))) ;;;
  execute_all
    (map INSERT_INTO_cache
       (map (fun kv => parameters self (fst kv) (snd kv) (resolve now e) section) data)).

(** The integers [set] binds fit SQLite's range. *)
Definition set_fits {R : Runtime} (key : atom) (value : pyval) (e : Z) : bool :=
  forallb fits_int64 (atom_ints key)
  && forallb fits_int64
       ((if e >? week then [e] else [])
        ++ match value with
           | PyInt i => [i]
           | _ => []
           end).

Definition set_many_fits {R : Runtime} (data : pydict) (e : Z) : bool :=
  forallb (fun kv => set_fits (fst kv) (snd kv) e) data.


(** What [get] answers for a key that has no row. *)
Definition default_value (default : default_arg) : pyval :=
  match default with
  | NO_DEFAULT => PyNone
  | Default d => d
  end.

(** The rows of a store other than those keyed by one of [ks]. *)
Definition without_keys (ks : list string) (l : list row) : list row :=
  filter (fun r => negb (existsb (String.eqb (r_key r)) ks)) l.

(** [d.get(k)]: [None] when [k] is not a key of [d]. *)
Fixpoint dict_get (d : pydict) (k : atom) : option pyval :=
  match d with
  | [] => None
  | (k', v) :: t => if atom_eqb k' k then Some v else dict_get t k
  end.

(** The logical key [get_many] files a row under. *)
Definition logical_key (self : NewCache) (section : atom) (r : row) : atom :=
  AStr (_reverse_key self (r_key r) section).

(** ** Settings ([vi/settings.py])

    [Cache] there is the name under which the package exports [NewCache]:
    it is built with [default_expires] and [override_path] and read with
    [allowExpired].  [INT_MAX] is [sys.maxint] or [sys.maxsize], the value
    of the platform. *)
Module Settings.

Record Settings := mkSettings {
  _defaults : pydict;
  section : atom
}.

(** How [__setitem__] ends. *)
Inductive outcome :=
| Done
| NameError (name : string)
| Failed (e : exn).

Section WithRuntime.
Context {R : Runtime}.
Variable INT_MAX : Z.

(** The accessor [initialize] stores in [Settings._cache]. *)
Definition _cache : NewCache := mkNewCache (Expires INT_MAX) ANone.

Definition register_setting (self : Settings) (key : atom) (default_value : pyval)
  : Settings :=
  mkSettings (dict_set (_defaults self) key default_value) (section self).

(** [self._defaults.update(settings)] *)
Definition register_settings (self : Settings) (settings : pydict) : Settings :=
  mkSettings
    (fold_left (fun d kv => dict_set d (fst kv) (snd kv)) settings (_defaults self))
    (section self).

Definition __getitem__ (self : Settings) (key : atom) (now : Z) (db : database)
  : result pyval :=
  let default :=
    match dict_get (_defaults self) key with
    | Some v => Default v
    | None => NO_DEFAULT
    end in
  get _cache key default (section self) true now db.

(** With [value is None] the call to make is
    [self._cache.delete(key, section=section)]; the module has no name
    [section], so evaluating the argument raises [NameError]. *)
Definition __setitem__ (self : Settings) (key : atom) (value : pyval) (now : Z)
    (db : database) : outcome * database :=
  match value with
  | PyNone => (NameError "section", db)
  | _ =>
      match set _cache key value DEFAULT_EXPIRES (section self) now db with
      | (Ok _, db') => (Done, db')
      | (Raise e, db') => (Failed e, db')
      end
  end.

End WithRuntime.

End Settings.

(** ** The connection of an accessor ([CacheBase.conn])

    The class attribute [CacheBase._path] and the attributes [_path] and
    [_conn] of one accessor, with what a connection to each file sees. *)
Module Handle.

Inductive failure :=
| CacheNotInitializedException
| Sqlite (e : exn).

Record state := mkState {
  cls_path : option string;
  self_path : option string;
  self_conn : option string;
  files : string -> database
}.

(** The truth value of a path: [None] and the empty string are false. *)
Definition truthy (p : option string) : bool :=
  match p with
  | Some s => negb (String.eqb s "")
  | None => false
  end.

(** [a == b] on paths *)
Definition path_eqb (a b : option string) : bool :=
  match a, b with
  | None, None => true
  | Some x, Some y => String.eqb x y
  | _, _ => false
  end.

Definition uses_global (st : state) : bool :=
  path_eqb (self_path st) (cls_path st).

(** The file [_get_connection(path)] opens: [path or cls._path]. *)
Definition _get_connection (st : state) (path : option string) : option string :=
  if truthy path then path else cls_path st.

Definition write_file (st : state) (path : string) (db : database) : state :=
  mkState (cls_path st) (self_path st) (self_conn st)
    (fun p => if String.eqb p path then db else files st p).

Inductive outcome :=
| Connected (file : string)
| Raised (f : failure).

(** The property [conn].  A connection is told by the file it is on;
    [sqlite3.connect(None)] is a [TypeError]. *)
Definition conn (now : Z) (st : state) : outcome * state :=
  match self_conn st with
  | Some c => (Connected c, st)
  | None =>
      if negb (truthy (self_path st)) && negb (truthy (cls_path st))
      then (Raised CacheNotInitializedException, st)
      else
        match _get_connection st (self_path st) with
        | None => (Raised (Sqlite TypeError), st)
        | Some c =>
            let st1 := mkState (cls_path st) (self_path st) (Some c) (files st) in
            if negb (uses_global st1)
            then
              match check_version now (files st1 c) with
              | (Ok _, db') => (Connected c, write_file st1 c db')
              | (Raise e, db') => (Raised (Sqlite e), write_file st1 c db')
              end
            else (Connected c, st1)
        end
  end.

End Handle.

(** * Properties *)

(** ** The serializer instance *)

Lemma read_write_nat (n : nat) (rest : bytes) :
  Pickle.read_nat (Pickle.write_nat n ++ rest) = Some (n, rest).
Proof.
  induction n as [|n IH]; simpl.
  - reflexivity.
  - rewrite IH. reflexivity.
Qed.

Lemma read_write_text (s : string) (rest : bytes) :
  Pickle.read_text (Pickle.write_text s ++ rest) = Some (s, rest).
Proof.
  unfold Pickle.read_text, Pickle.write_text.
  rewrite <- app_assoc, read_write_nat.
  set (bs := list_byte_of_string s).
  assert (E : (length (bs ++ rest) <? length bs)%nat = false).
  { apply Nat.ltb_ge. rewrite length_app. lia. }
  rewrite E.
  rewrite firstn_app, Nat.sub_diag, firstn_all, firstn_O, app_nil_r.
  rewrite skipn_app, Nat.sub_diag, skipn_all, skipn_O. simpl.
  unfold bs. rewrite string_of_list_byte_of_string. reflexivity.
Qed.

(** Parsing the decimal rendering of an integer gives the integer back. *)
Lemma int_of_text_str_int (z : Z) : Pickle.int_of_text (str_int z) = Some z.
Proof.
  unfold Pickle.int_of_text, str_int.
  rewrite NilZero.isi.
  - simpl. rewrite DecimalZ.of_to. reflexivity.
  - destruct z; simpl; try discriminate.
    intro H. injection H as H. exact (DecimalPos.Unsigned.to_uint_nonnil _ H).
  - destruct z; simpl; try discriminate.
    intro H. injection H as H. exact (DecimalPos.Unsigned.to_uint_nonnil _ H).
Qed.

Lemma load_items_dump (fuel : nat) (l : list pyval) :
  Forall loads_back l ->
  forall rest,
    (length (flat_map Pickle.dump l) <= fuel)%nat ->
    Pickle.load_items (Pickle.load fuel) (length l) (flat_map Pickle.dump l ++ rest)
    = Some (l, rest).
Proof.
  induction 1 as [|v l Hv _ IH]; intros rest Hlen; simpl in *.
  - reflexivity.
  - rewrite length_app in Hlen.
    rewrite <- app_assoc, Hv by lia.
    rewrite IH by lia. reflexivity.
Qed.

Lemma load_pairs_dump (fuel : nat) (items : list (pyval * pyval)) :
  Forall (fun kv => loads_back (fst kv) /\ loads_back (snd kv)) items ->
  forall rest,
    (length (flat_map (fun kv : pyval * pyval =>
                         let (k, w) := kv in Pickle.dump k ++ Pickle.dump w) items)
     <= fuel)%nat ->
    Pickle.load_pairs (Pickle.load fuel) (length items)
      (flat_map (fun kv : pyval * pyval =>
                   let (k, w) := kv in Pickle.dump k ++ Pickle.dump w) items ++ rest)
    = Some (items, rest).
Proof.
  induction 1 as [|[k w] items [Hk Hw] _ IH]; intros rest Hlen; simpl in *.
  - reflexivity.
  - rewrite !length_app in Hlen.
    rewrite <- !app_assoc, Hk by lia.
    rewrite Hw by lia.
    rewrite IH by lia. reflexivity.
Qed.

Lemma load_dump (v : pyval) : loads_back v.
Proof.
  induction v using pyval_nested_ind; intros fuel rest Hlen;
    (destruct fuel as [|fuel]; [simpl in Hlen; lia|]).
  - reflexivity.
  - cbn -[Pickle.read_text Pickle.write_text].
    rewrite read_write_text, int_of_text_str_int. reflexivity.
  - cbn -[Pickle.read_text Pickle.write_text].
    rewrite read_write_text. reflexivity.
  - cbn [Pickle.dump length app] in Hlen |- *. rewrite length_app in Hlen.
    rewrite <- app_assoc. cbn [Pickle.load]. step_tags.
    rewrite read_write_nat, load_items_dump by (trivial; lia). reflexivity.
  - cbn [Pickle.dump length app] in Hlen |- *. rewrite length_app in Hlen.
    rewrite <- app_assoc. cbn [Pickle.load]. step_tags.
    rewrite read_write_nat, load_items_dump by (trivial; lia). reflexivity.
  - cbn [Pickle.dump length app] in Hlen |- *. rewrite length_app in Hlen.
    rewrite <- app_assoc. cbn [Pickle.load]. step_tags.
    rewrite read_write_nat, load_pairs_dump by (trivial; lia). reflexivity.
Qed.

(** The instance round-trips every value. *)
Lemma pickle_loads_dumps (v : pyval) : Pickle.loads (Pickle.dumps v) = Ok v.
Proof.
  unfold Pickle.loads, Pickle.dumps.
  pose proof (load_dump v (length (Pickle.dump v)) [] (Nat.le_refl _)) as H.
  rewrite app_nil_r in H. rewrite H. reflexivity.
Qed.

(** ** Key construction *)

Lemma slice_from_append (a k : string) :
  slice_from (String.length a) (a ++ k)%string = k.
Proof.
  induction a as [|c a IH]; simpl.
  - destruct k; reflexivity.
  - exact IH.
Qed.

Lemma append_assoc (a b c : string) :
  ((a ++ b) ++ c = a ++ (b ++ c))%string.
Proof.
  induction a as [|x a IH]; simpl; [reflexivity | now rewrite IH].
Qed.

(** A join whose last segment is [k] is the join with an empty last segment,
    followed by [k]. *)
Lemma concat_last (sep : string) (l : list string) (k : string) :
  String.concat sep (l ++ [k]) = (String.concat sep (l ++ [""]) ++ k)%string.
Proof.
  induction l as [|x l IH].
  - reflexivity.
  - cbn [app String.concat].
    destruct (l ++ [k]) eqn:Ek; [destruct l; discriminate|].
    destruct (l ++ [""]) eqn:Ee; [destruct l; discriminate|].
    rewrite IH, !append_assoc. reflexivity.
Qed.

Lemma segments_last (p s key : atom) :
  is_not_None key = true ->
  map str (filter is_not_None [p; s; key])
  = map str (filter is_not_None [p; s]) ++ [str key].
Proof.
  intros Hk. cbn [filter]. rewrite Hk.
  destruct (is_not_None p), (is_not_None s); reflexivity.
Qed.

(** The full key is the full key of the empty logical key followed by the
    text of the logical key. *)
Lemma _get_key_split (self : NewCache) (key section : atom) :
  is_not_None key = true ->
  _get_key self key section
  = (_get_key self (AStr "") section ++ str key)%string.
Proof.
  intros Hk. unfold _get_key.
  rewrite (segments_last _ _ key Hk), (segments_last _ _ (AStr "") eq_refl).
  apply concat_last.
Qed.

Lemma _reverse_key_str (self : NewCache) (key section : atom) :
  is_not_None key = true ->
  _reverse_key self (_get_key self key section) section = str key.
Proof.
  intros Hk. unfold _reverse_key.
  rewrite (_get_key_split self key section Hk).
  apply slice_from_append.
Qed.


Example full_key_example :
  _get_key (mkNewCache DEFAULT_EXPIRES (AStr "api")) (AStr "Xanthos") (AStr "namesToId")
  = "api:namesToId:Xanthos".
Proof. reflexivity. Qed.

Example full_key_no_prefix :
  _get_key (mkNewCache DEFAULT_EXPIRES ANone) (AInt 42) ANone = "42".
Proof. reflexivity. Qed.


(** ** The store *)

Lemma compare_refl (s : string) : String.compare s s = Eq.
Proof.
  pose proof (String.compare_antisym s s) as H.
  destruct (String.compare s s); simpl in H; congruence.
Qed.

(** Equality of two texts is equality of strings. *)
Lemma sql_eq_text (a b : string) : sql_eq (SText a) (SText b) = String.eqb a b.
Proof.
  unfold sql_eq, sql_compare.
  destruct (String.eqb_spec a b) as [->|Hne].
  - now rewrite compare_refl.
  - destruct (String.compare a b) eqn:E; try reflexivity.
    apply String.compare_eq_iff in E. contradiction.
Qed.

Lemma prepare_key_eq (p : sqlval) :
  prepare (WEq "key" p)
  = Ok (fun r => sql_eq (SText (r_key r)) (apply_affinity AffText p)).
Proof. reflexivity. Qed.

Lemma prepare_key_in (ps : list sqlval) :
  prepare (WIn "key" ps)
  = Ok (fun r => existsb (fun p => sql_eq (SText (r_key r)) (apply_affinity AffText p)) ps).
Proof. reflexivity. Qed.

(** A clause that names [expired], which [cache] does not have. *)
Lemma prepare_expired (w : where_clause) (f : row -> bool) (n : sqlval) :
  prepare w = Ok f ->
  prepare (WAnd w (WLe "expired" n)) = Raise (no_such_column "expired")
  /\ prepare (WAnd w (WLt "expired" n)) = Raise (no_such_column "expired").
Proof.
  intros H. cbn [prepare]. rewrite H. split; reflexivity.
Qed.

(** What a statement leaves in [cache]. *)
Lemma delete_cache_spec (w : where_clause) (db : database) :
  (exists f, prepare w = Ok f
             /\ cache_table db <> None
             /\ delete_cache w db
                = (Ok tt, mkDb (version_table db)
                               (Some (filter (fun r => negb (f r)) (rows db)))))
  \/ (exists e, delete_cache w db = (Raise e, db)).
Proof.
  unfold delete_cache, rows.
  destruct (cache_table db) as [l|]; [|right; eauto].
  destruct (prepare w) as [f|e]; [|right; eauto].
  left. exists f. repeat split. discriminate.
Qed.

Lemma insert_cache_spec (r : row) (db : database) :
  (has_key (r_key r) (rows db) = false
   /\ insert_cache r db = (Ok tt, mkDb (version_table db) (Some (rows db ++ [r]))))
  \/ (exists e, insert_cache r db = (Raise e, db)).
Proof.
  unfold insert_cache, rows.
  destruct (cache_table db) as [l|]; [|right; eauto].
  destruct (has_key (r_key r) l) eqn:E; [right; eauto|].
  left. split; reflexivity.
Qed.

Lemma preserves_ret {A : Type} (I : database -> Prop) (a : A) : preserves I (ret a).
Proof. intros db H. exact H. Qed.

Lemma preserves_raise {A : Type} (I : database -> Prop) (e : exn) :
  preserves I (@raise A e).
Proof. intros db H. exact H. Qed.

Lemma preserves_bind {A B : Type} (I : database -> Prop) (m : M A) (k : A -> M B) :
  preserves I m -> (forall a, preserves I (k a)) -> preserves I (bind m k).
Proof.
  intros Hm Hk db H. unfold bind.
  specialize (Hm db H). destruct (m db) as [[a|e] db']; simpl in *.
  - apply Hk, Hm.
  - exact Hm.
Qed.

Lemma preserves_execute_all (I : database -> Prop) (qs : list statement) :
  (forall q, In q qs -> preserves I (execute q)) -> preserves I (execute_all qs).
Proof.
  induction qs as [|q qs IH]; intros H; cbn [execute_all].
  - apply preserves_ret.
  - apply preserves_bind.
    + apply H. now left.
    + intros _. apply IH. intros q' Hq'. apply H. now right.
Qed.

(** *** Binding parameters *)

Lemma preparation_error_execute (q : statement) (db : database) (e : exn) :
  preparation_error q db = Some e -> execute q db = (Raise e, db).
Proof.
  destruct q; cbn [preparation_error execute]; try discriminate.
  - unfold delete_cache. destruct (cache_table db); [|now intros [= <-]].
    destruct (prepare w); [discriminate | now intros [= <-]].
  - unfold insert_cache. destruct (cache_table db); [discriminate | now intros [= <-]].
Qed.

(** When the integers bound fit, binding adds nothing to the run of the
    statement. *)
Lemma cursor_execute_fits (q : statement) (ints : list Z) (db : database) :
  forallb fits_int64 ints = true -> cursor_execute q ints db = execute q db.
Proof.
  intros H. unfold cursor_execute. rewrite H.
  destruct (preparation_error q db) eqn:E; [|reflexivity].
  symmetry. now apply preparation_error_execute.
Qed.

Lemma cursor_execute_cases (q : statement) (ints : list Z) (db : database) :
  (forallb fits_int64 ints = true /\ cursor_execute q ints db = execute q db)
  \/ (forallb fits_int64 ints = false
      /\ exists e, cursor_execute q ints db = (Raise e, db)
                   /\ (e = OverflowError \/ execute q db = (Raise e, db))).
Proof.
  destruct (forallb fits_int64 ints) eqn:H.
  - left. split; [reflexivity | now apply cursor_execute_fits].
  - right. split; [reflexivity|]. unfold cursor_execute. rewrite H.
    destruct (preparation_error q db) eqn:E; eexists; split; try reflexivity.
    + right. now apply preparation_error_execute.
    + now left.
Qed.

Lemma cursor_execute_ok (q : statement) (ints : list Z) (db db' : database) :
  cursor_execute q ints db = (Ok tt, db') ->
  execute q db = (Ok tt, db') /\ forallb fits_int64 ints = true.
Proof.
  destruct (cursor_execute_cases q ints db) as [[Hf ->]|[_ [e [-> _]]]];
    [auto | discriminate].
Qed.

Lemma preserves_cursor_execute (I : database -> Prop) (q : statement) (ints : list Z) :
  preserves I (execute q) -> preserves I (cursor_execute q ints).
Proof.
  intros H db Hdb.
  destruct (cursor_execute_cases q ints db) as [[_ ->]|[_ [e [-> _]]]];
    [now apply H | exact Hdb].
Qed.

Lemma preserves_executemany (I : database -> Prop) (qs : list (statement * list Z)) :
  (forall q, In q (map fst qs) -> preserves I (execute q)) ->
  preserves I (executemany qs).
Proof.
  induction qs as [|[q ints] qs IH]; intros H; cbn [executemany].
  - apply preserves_ret.
  - apply preserves_bind.
    + apply preserves_cursor_execute, H. now left.
    + intros _. apply IH. intros q' Hq'. apply H. now right.
Qed.

(** A batch that succeeds ran each of its statements. *)
Lemma executemany_ok (qs : list (statement * list Z)) (db db' : database) :
  executemany qs db = (Ok tt, db') ->
  execute_all (map fst qs) db = (Ok tt, db')
  /\ Forall (fun q => forallb fits_int64 (snd q) = true) qs.
Proof.
  revert db. induction qs as [|[q ints] qs IH]; intros db; cbn [executemany map fst].
  - intros H. split; [exact H | constructor].
  - cbn [execute_all]. unfold bind.
    destruct (cursor_execute q ints db) as [[[]|e] db1] eqn:E; [|discriminate].
    apply cursor_execute_ok in E as [-> Hf].
    intros H. apply IH in H as [H1 H2]. split; [exact H1 | now constructor].
Qed.


(** *** At most one row per key *)

Lemma has_key_In (k : string) (l : list row) :
  has_key k l = true <-> In k (map r_key l).
Proof.
  unfold has_key. rewrite existsb_exists, in_map_iff. split.
  - intros [r [Hr E]]. apply String.eqb_eq in E. eauto.
  - intros [r [E Hr]]. exists r. split; [assumption|]. now apply String.eqb_eq.
Qed.

Lemma NoDup_map_filter {A B : Type} (f : A -> B) (g : A -> bool) (l : list A) :
  NoDup (map f l) -> NoDup (map f (filter g l)).
Proof.
  induction l as [|x l IH]; simpl; intros H; [constructor|].
  inversion H as [|? ? Hnin Hnd]; subst.
  destruct (g x); simpl; [|auto].
  constructor; [|auto].
  intros Hin. apply Hnin. apply in_map_iff in Hin as [y [E Hy]].
  apply filter_In in Hy as [Hy _]. apply in_map_iff. eauto.
Qed.

Lemma NoDup_map_snoc (l : list row) (r : row) :
  NoDup (map r_key l) -> has_key (r_key r) l = false ->
  NoDup (map r_key (l ++ [r])).
Proof.
  intros Hnd Hk. rewrite map_app. simpl.
  apply NoDup_app; [assumption | repeat constructor; intros [] |].
  intros k Hin [<-|[]].
  apply has_key_In in Hin. congruence.
Qed.

(** Every statement keeps the keys of [cache] distinct: the primary key
    refuses a second row. *)
Lemma execute_unique_keys (q : statement) : preserves unique_keys (execute q).
Proof.
  intros db H. unfold unique_keys in *.
  destruct q; cbn [execute].
  - destruct (version_table db); exact H.
  - destruct (version_table db); exact H.
  - unfold rows in *. destruct (cache_table db) eqn:E; simpl;
      [rewrite E; exact H | constructor].
  - destruct (version_table db); exact H.
  - destruct (delete_cache_spec w db) as [[f [_ [_ E]]]|[e E]]; rewrite E; simpl.
    + unfold rows at 1. simpl. now apply NoDup_map_filter.
    + exact H.
  - destruct (insert_cache_spec r db) as [[Hk E]|[e E]]; rewrite E; simpl.
    + unfold rows at 1. simpl. now apply NoDup_map_snoc.
    + exact H.
Qed.

Lemma set_unique_keys {R : Runtime} (self : NewCache) (key : atom) (value : pyval)
    (expires : expiry) (section : atom) (now : Z) :
  preserves unique_keys (set self key value expires section now).
Proof.
  unfold set. destruct (_get_expiry self expires); [|apply preserves_raise].
  apply preserves_bind; intros; apply preserves_cursor_execute, execute_unique_keys.
Qed.

Lemma set_many_unique_keys {R : Runtime} (self : NewCache) (data : pydict)
    (expires : expiry) (section : atom) (now : Z) :
  preserves unique_keys (set_many self data expires section now).
Proof.
  unfold set_many. destruct (_get_expiry self expires); [|apply preserves_raise].
  apply preserves_bind; [apply preserves_cursor_execute, execute_unique_keys|].
  intros _. apply preserves_executemany. intros; apply execute_unique_keys.
Qed.

(** *** What statements raise *)

Lemma prepare_raises (w : where_clause) (e : exn) :
  prepare w = Raise e -> exists msg, e = OperationalError msg.
Proof.
  induction w as [col p|col ps|col p|col p|a IHa b IHb]; cbn [prepare]; unfold with_column;
    try (destruct (cache_column col) as [[aff proj]|]; intros H; inversion H;
         unfold no_such_column; eauto).
  destruct (prepare a) as [fa|ea].
  - destruct (prepare b) as [fb|eb]; intros H; inversion H; subst; auto.
  - intros H; inversion H; subst; auto.
Qed.

(** A statement raises nothing but [OperationalError] and [IntegrityError]. *)
Lemma execute_raises (q : statement) (db db' : database) (e : exn) :
  execute q db = (Raise e, db') ->
  exists msg, e = OperationalError msg \/ e = IntegrityError msg.
Proof.
  destruct q; cbn [execute].
  - destruct (version_table db); intros H; inversion H; unfold already_exists; eauto.
  - destruct (version_table db); intros H; inversion H; unfold no_such_table; eauto.
  - destruct (cache_table db); intros H; inversion H; unfold already_exists; eauto.
  - destruct (version_table db); intros H; inversion H; unfold no_such_table; eauto.
  - unfold delete_cache. destruct (cache_table db).
    + destruct (prepare w) eqn:E; intros H; inversion H; subst.
      destruct (prepare_raises _ _ E) as [msg ->]. eauto.
    + intros H; inversion H; unfold no_such_table; eauto.
  - unfold insert_cache. destruct (cache_table db).
    + destruct (has_key (r_key r) l); intros H; inversion H; eauto.
    + intros H; inversion H; unfold no_such_table; eauto.
Qed.

Lemma execute_all_raises (qs : list statement) (db db' : database) (e : exn) :
  execute_all qs db = (Raise e, db') ->
  exists msg, e = OperationalError msg \/ e = IntegrityError msg.
Proof.
  revert db. induction qs as [|q qs IH]; intros db; cbn [execute_all].
  - intros H; inversion H.
  - unfold bind. destruct (execute q db) as [[[]|e1] db1] eqn:E.
    + apply IH.
    + intros H; inversion H; subst. eapply execute_raises; eassumption.
Qed.

Lemma cursor_execute_raises (q : statement) (ints : list Z) (db db' : database)
    (e : exn) :
  cursor_execute q ints db = (Raise e, db') ->
  e = OverflowError \/ exists msg, e = OperationalError msg \/ e = IntegrityError msg.
Proof.
  destruct (cursor_execute_cases q ints db) as [[_ ->]|[_ [e' [-> [->|He]]]]].
  - intros H. right. eapply execute_raises; eassumption.
  - intros [= <- _]. now left.
  - intros [= <- _]. right. eapply execute_raises; eassumption.
Qed.

Lemma executemany_raises (qs : list (statement * list Z)) (db db' : database) (e : exn) :
  executemany qs db = (Raise e, db') ->
  e = OverflowError \/ exists msg, e = OperationalError msg \/ e = IntegrityError msg.
Proof.
  revert db. induction qs as [|[q ints] qs IH]; intros db; cbn [executemany].
  - intros H; inversion H.
  - unfold bind. destruct (cursor_execute q ints db) as [[[]|e1] db1] eqn:E.
    + apply IH.
    + intros H; inversion H; subst. eapply cursor_execute_raises; eassumption.
Qed.

(** The rows a run of [INSERT]s adds when all succeed. *)
Lemma execute_all_inserts (rs : list row) (db db' : database) :
  execute_all (map INSERT_INTO_cache rs) db = (Ok tt, db') ->
  rows db' = rows db ++ rs.
Proof.
  revert db. induction rs as [|r rs IH]; intros db; cbn [map execute_all].
  - intros H; inversion H; subst. now rewrite app_nil_r.
  - unfold bind. cbn [execute].
    destruct (insert_cache_spec r db) as [[_ E]|[e E]]; rewrite E.
    + intros H. apply IH in H. rewrite H. unfold rows at 1. simpl.
      now rewrite <- app_assoc.
    + intros H; inversion H.
Qed.

(** ** Expiry *)

Lemma resolve_absolute (now e : Z) : week < e -> resolve now e = e.
Proof.
  intros H. unfold resolve. destruct (Z.gtb_spec e week); [reflexivity | lia].
Qed.




Lemma parameters_key {R : Runtime} (self : NewCache) (key : atom) (value : pyval)
    (e : Z) (section : atom) :
  r_key (parameters self key value e section) = _get_key self key section.
Proof.
  unfold parameters. destruct (from_python value) as [[b i] s]. reflexivity.
Qed.

Lemma parameters_expires {R : Runtime} (self : NewCache) (key : atom) (value : pyval)
    (e : Z) (section : atom) :
  r_expires (parameters self key value e section) = e.
Proof.
  unfold parameters. destruct (from_python value) as [[b i] s]. reflexivity.
Qed.

Lemma parameters_fields {R : Runtime} (self : NewCache) (key : atom) (value : pyval)
    (e : Z) (section : atom) :
  row_fields (parameters self key value e section) = from_python value.
Proof.
  unfold parameters. destruct (from_python value) as [[b i] s]. reflexivity.
Qed.

Lemma row_ints_parameters {R : Runtime} (self : NewCache) (key : atom) (value : pyval)
    (e x : Z) (section : atom) :
  row_ints e (parameters self key value x section)
  = (if e >? week then [e] else [])
    ++ match value with
       | PyInt i => [i]
       | _ => []
       end.
Proof.
  unfold row_ints, parameters. destruct value; reflexivity.
Qed.

(** A [set] that succeeds bound integers that fit and ran its two
    statements. *)
Lemma set_ok_run {R : Runtime} (self : NewCache) (key : atom) (value : pyval)
    (expires : expiry) (section : atom) (now e : Z) (db db' : database) :
  _get_expiry self expires = Ok e ->
  set self key value expires section now db = (Ok tt, db') ->
  set_run self key value e section now db = (Ok tt, db')
  /\ set_fits key value e = true.
Proof.
  intros He. unfold set, set_run, set_fits. rewrite He. unfold bind.
  destruct (cursor_execute _ (atom_ints key) db) as [[[]|e1] db1] eqn:E1; [|discriminate].
  apply cursor_execute_ok in E1 as [-> Hk]. intros E2.
  apply cursor_execute_ok in E2 as [-> Hr].
  rewrite row_ints_parameters in Hr. now rewrite Hk, Hr.
Qed.

(** When the integers bound fit, [set] is the run of its two statements. *)
Lemma set_fits_run {R : Runtime} (self : NewCache) (key : atom) (value : pyval)
    (expires : expiry) (section : atom) (now e : Z) (db : database) :
  _get_expiry self expires = Ok e ->
  set_fits key value e = true ->
  set self key value expires section now db = set_run self key value e section now db.
Proof.
  intros He Hf. apply andb_true_iff in Hf as [Hk Hr].
  unfold set, set_run. rewrite He. unfold bind.
  rewrite (cursor_execute_fits _ _ db Hk).
  destruct (execute _ db) as [[[]|e1] db1]; [|reflexivity].
  apply cursor_execute_fits. now rewrite row_ints_parameters.
Qed.


Lemma set_many_bound_inv {R : Runtime} (self : NewCache) (data : pydict) (e x : Z)
    (section : atom) :
  forallb fits_int64 (flat_map (fun kv => atom_ints (fst kv)) data) = true ->
  Forall (fun q : statement * list Z => forallb fits_int64 (snd q) = true)
    (map (fun p => (INSERT_INTO_cache p, row_ints e p))
       (map (fun kv => parameters self (fst kv) (snd kv) x section) data)) ->
  set_many_fits data e = true.
Proof.
  unfold set_many_fits. induction data as [|[k v] data IH]; cbn [forallb flat_map map fst snd].
  - reflexivity.
  - rewrite forallb_app. intros Hk Hr. apply andb_true_iff in Hk as [Hk Hks].
    inversion Hr as [|? ? Hr1 Hr2]; subst. cbn [snd] in Hr1.
    rewrite row_ints_parameters in Hr1.
    apply andb_true_iff. split; [|exact (IH Hks Hr2)].
    unfold set_fits. cbn [fst snd]. now rewrite Hk, Hr1.
Qed.

Lemma set_many_ok_run {R : Runtime} (self : NewCache) (data : pydict)
    (expires : expiry) (section : atom) (now e : Z) (db db' : database) :
  _get_expiry self expires = Ok e ->
  set_many self data expires section now db = (Ok tt, db') ->
  set_many_run self data e section now db = (Ok tt, db')
  /\ set_many_fits data e = true.
Proof.
  intros He. unfold set_many, set_many_run. rewrite He. unfold bind.
  destruct (cursor_execute _ _ db) as [[[]|e1] db1] eqn:E1; [|discriminate].
  apply cursor_execute_ok in E1 as [-> Hk]. intros E2.
  apply executemany_ok in E2 as [E2 Hr].
  rewrite map_map in E2. cbn [fst] in E2. rewrite map_map.
  rewrite map_map in E2. split; [exact E2|].
  eapply set_many_bound_inv; eassumption.
Qed.


(** The row a successful [set] leaves is the one it computed. *)
Lemma set_ok_row {R : Runtime} (self : NewCache) (key : atom) (value : pyval)
    (expires : expiry) (section : atom) (now e : Z) (db db' : database) :
  _get_expiry self expires = Ok e ->
  set self key value expires section now db = (Ok tt, db') ->
  In (parameters self key value (resolve now e) section) (rows db').
Proof.
  intros He Hs. apply (set_ok_run self key value expires section now e db db' He) in Hs.
  destruct Hs as [Hs _]. revert Hs. unfold set_run, bind.
  destruct (execute _ db) as [[[]|e1] db1]; [|intros H; inversion H].
  cbn [execute].
  destruct (insert_cache_spec (parameters self key value (resolve now e) section) db1)
    as [[_ E]|[e2 E]]; rewrite E; intros H; inversion H; subst.
  unfold rows. simpl. apply in_or_app. right. now left.
Qed.

Lemma set_many_ok_rows {R : Runtime} (self : NewCache) (data : pydict)
    (expires : expiry) (section : atom) (now e : Z) (db db' : database) :
  _get_expiry self expires = Ok e ->
  set_many self data expires section now db = (Ok tt, db') ->
  forall k v, In (k, v) data ->
    In (parameters self k v (resolve now e) section) (rows db').
Proof.
  intros He Hs.
  apply (set_many_ok_run self data expires section now e db db' He) in Hs.
  destruct Hs as [Hs _]. revert Hs. unfold set_many_run, bind.
  destruct (execute _ db) as [[[]|e1] db1]; [|intros H; inversion H].
  intros H k v Hin. apply execute_all_inserts in H. rewrite H.
  apply in_or_app. right.
  apply in_map_iff. exists (k, v). split; [reflexivity | assumption].
Qed.








(** Both branches of the expiry, on [set_many]: a duration of six hours is
    stored as [now + 21600], an expiry beyond a week as passed. *)
Example set_many_stores_expiry :
  map r_expires
    (rows (snd (set_many (R := Python3) (mkNewCache (Expires 21600) (AStr "api"))
                  [(AStr "a", PyInt 1); (AStr "b", PyStr "x")]
                  DEFAULT_EXPIRES ANone 1700000000 (opened 1700000000))))
  = [1700021600; 1700021600]
  /\ map r_expires
       (rows (snd (set_many (R := Python3) (mkNewCache (Expires 21600) (AStr "api"))
                     [(AStr "a", PyInt 1); (AStr "b", PyStr "x")]
                     (Expires 1800000000) ANone 1700000000 (opened 1700000000))))
     = [1800000000; 1800000000]
  /\ map r_expires
       (rows (snd (set_many (R := Python3) (mkNewCache (Expires 21600) (AStr "api"))
                     [(AStr "a", PyInt 1); (AStr "b", PyStr "x")]
                     (Expires 604800) ANone 1700000000 (opened 1700000000))))
     = [1700604800; 1700604800].
Proof. repeat split. Qed.

(** ** Missing expiry *)

Lemma bind_Raise {A B : Type} (m : M A) (k : A -> M B) (db db' : database) (e : exn) :
  bind m k db = (Raise e, db') ->
  m db = (Raise e, db')
  \/ exists a db1, m db = (Ok a, db1) /\ k a db1 = (Raise e, db').
Proof.
  unfold bind. destruct (m db) as [[a|e1] db1]; intros H;
    [right; eauto | left; inversion H; reflexivity].
Qed.

Lemma _get_expiry_raises (self : NewCache) (expires : expiry) (e : exn) :
  _get_expiry self expires = Raise e <->
  expires = DEFAULT_EXPIRES /\ _expires self = DEFAULT_EXPIRES /\ e = MissingExpiry.
Proof.
  unfold _get_expiry, MissingExpiry.
  destruct expires; [destruct (_expires self)|]; split;
    try (intros H; inversion H; auto; fail);
    try (intros [H1 [H2 H3]]; subst; congruence).
Qed.

(** C7. [set] and [set_many] raise the missing-expiry [ValueError] exactly
    when no expiry is passed and the accessor has no default; they then
    raise it before any statement runs, so the store is unchanged.  With an
    explicit expiry or a default, no [ValueError] is raised. *)
Theorem missing_expiry {R : Runtime} (self : NewCache) (key : atom) (value : pyval)
    (data : pydict) (expires : expiry) (section : atom) (now : Z) (db : database) :
  ((exists msg, fst (set self key value expires section now db) = Raise (ValueError msg))
   <-> expires = DEFAULT_EXPIRES /\ _expires self = DEFAULT_EXPIRES)
  /\ ((exists msg, fst (set_many self data expires section now db) = Raise (ValueError msg))
      <-> expires = DEFAULT_EXPIRES /\ _expires self = DEFAULT_EXPIRES)
  /\ (expires = DEFAULT_EXPIRES /\ _expires self = DEFAULT_EXPIRES ->
      set self key value expires section now db = (Raise MissingExpiry, db)
      /\ set_many self data expires section now db = (Raise MissingExpiry, db)).
Proof.
  assert (Hmiss : expires = DEFAULT_EXPIRES /\ _expires self = DEFAULT_EXPIRES ->
                  _get_expiry self expires = Raise MissingExpiry).
  { intros [-> H]. apply _get_expiry_raises. auto. }
  split; [split | split; [split | intros H; split]].
  - intros [msg H]. unfold set in H.
    destruct (_get_expiry self expires) as [e|e] eqn:E.
    + exfalso.
      destruct (bind _ _ db) as [res db'] eqn:Eb. simpl in H. subst res.
      apply bind_Raise in Eb as [E1|[[] [db1 [_ E2]]]];
        [destruct (cursor_execute_raises _ _ _ _ _ E1) as [?|[m [?|?]]]
        |destruct (cursor_execute_raises _ _ _ _ _ E2) as [?|[m [?|?]]]]; discriminate.
    + apply _get_expiry_raises in E. tauto.
  - intros H. apply Hmiss in H. unfold set. rewrite H. unfold MissingExpiry. simpl. eauto.
  - intros [msg H]. unfold set_many in H.
    destruct (_get_expiry self expires) as [e|e] eqn:E.
    + exfalso.
      destruct (bind _ _ db) as [res db'] eqn:Eb. simpl in H. subst res.
      apply bind_Raise in Eb as [E1|[[] [db1 [_ E2]]]];
        [destruct (cursor_execute_raises _ _ _ _ _ E1) as [?|[m [?|?]]]
        |destruct (executemany_raises _ _ _ _ E2) as [?|[m [?|?]]]]; discriminate.
    + apply _get_expiry_raises in E. tauto.
  - intros H. apply Hmiss in H. unfold set_many. rewrite H. unfold MissingExpiry. simpl. eauto.
  - apply Hmiss in H. unfold set. now rewrite H.
  - apply Hmiss in H. unfold set_many. now rewrite H.
Qed.

Lemma missing_expiry_witness :
  (DEFAULT_EXPIRES = DEFAULT_EXPIRES
   /\ _expires (mkNewCache DEFAULT_EXPIRES ANone) = DEFAULT_EXPIRES)
  /\ set (R := Python3) (mkNewCache DEFAULT_EXPIRES ANone) (AStr "x") (PyInt 42)
       DEFAULT_EXPIRES ANone 1700000000 (opened 1700000000)
     = (Raise MissingExpiry, opened 1700000000)
  /\ set_many (R := Python3) (mkNewCache DEFAULT_EXPIRES ANone)
       [(AStr "a", PyStr "foo"); (AStr "b", PyInt 7)]
       DEFAULT_EXPIRES ANone 1700000000 (opened 1700000000)
     = (Raise MissingExpiry, opened 1700000000).
Proof.
  split; [split; reflexivity|].
  apply (proj2 (proj2 (missing_expiry (R := Python3) (mkNewCache DEFAULT_EXPIRES ANone)
                         (AStr "x") (PyInt 42) [(AStr "a", PyStr "foo"); (AStr "b", PyInt 7)]
                         DEFAULT_EXPIRES ANone 1700000000 (opened 1700000000)))).
  split; reflexivity.
Defined.

(** ** One of three *)

Lemma from_python_one_of_three {R : Runtime} (v : pyval) :
  non_null_count (from_python v) = 1%nat.
Proof. destruct v; reflexivity. Qed.

Lemma execute_one_of_three (q : statement) :
  (forall r, q = INSERT_INTO_cache r -> one_of_three r) ->
  preserves (fun db => Forall one_of_three (rows db)) (execute q).
Proof.
  intros Hq db H.
  destruct q; cbn [execute].
  - destruct (version_table db); exact H.
  - destruct (version_table db); exact H.
  - unfold rows in *. destruct (cache_table db) eqn:E; simpl;
      [rewrite E; exact H | constructor].
  - destruct (version_table db); exact H.
  - destruct (delete_cache_spec w db) as [[f [_ [_ E]]]|[e E]]; rewrite E; simpl.
    + unfold rows at 1. simpl. apply Forall_forall. intros r Hr.
      apply filter_In in Hr as [Hr _]. rewrite Forall_forall in H. auto.
    + exact H.
  - destruct (insert_cache_spec r db) as [[Hk E]|[e E]]; rewrite E; simpl.
    + unfold rows at 1. simpl. apply Forall_app. split; [exact H|].
      constructor; [|constructor]. now apply Hq.
    + exact H.
Qed.

Lemma parameters_one_of_three {R : Runtime} (self : NewCache) (key : atom)
    (value : pyval) (e : Z) (section : atom) :
  one_of_three (parameters self key value e section).
Proof.
  unfold one_of_three. rewrite parameters_fields. apply from_python_one_of_three.
Qed.

(** C9. The encoder fills exactly one of the three slots for every value,
    and a store whose rows all have exactly one non-null value column still
    has only such rows after a [set] or a [set_many], whatever their
    outcome. *)
Theorem written_rows_one_of_three {R : Runtime} (self : NewCache) (key : atom)
    (value : pyval) (data : pydict) (expires : expiry) (section : atom) (now : Z)
    (db : database) :
  Forall one_of_three (rows db) ->
  (forall v, non_null_count (from_python v) = 1%nat)
  /\ Forall one_of_three (rows (snd (set self key value expires section now db)))
  /\ Forall one_of_three (rows (snd (set_many self data expires section now db))).
Proof.
  intros H. split; [apply from_python_one_of_three|]. split.
  - revert db H. change (preserves (fun db => Forall one_of_three (rows db))
                           (set self key value expires section now)).
    unfold set. destruct (_get_expiry self expires); [|apply preserves_raise].
    apply preserves_bind; intros; apply preserves_cursor_execute, execute_one_of_three.
    + discriminate.
    + intros r E. inversion E; subst. apply parameters_one_of_three.
  - revert db H. change (preserves (fun db => Forall one_of_three (rows db))
                           (set_many self data expires section now)).
    unfold set_many. destruct (_get_expiry self expires); [|apply preserves_raise].
    apply preserves_bind;
      [apply preserves_cursor_execute, execute_one_of_three; discriminate|].
    intros _. apply preserves_executemany. intros q Hq.
    apply execute_one_of_three. intros r ->.
    rewrite map_map in Hq. cbn [fst] in Hq.
    apply in_map_iff in Hq as [r' [E Hr']]. inversion E; subst.
    apply in_map_iff in Hr' as [[k v] [<- _]]. apply parameters_one_of_three.
Qed.

Lemma written_rows_one_of_three_witness :
  Forall one_of_three (rows (mkDb (Some [1]) (Some [mkRow "api:a" None (Some 7) None 1700003600])))
  /\ (forall v, non_null_count (from_python (R := Python3) v) = 1%nat)
  /\ Forall one_of_three
       (rows (snd (set (R := Python3) (mkNewCache (Expires 3600) (AStr "api"))
                     (AStr "b") (PyTuple [PyInt 1; PyStr "foo"]) DEFAULT_EXPIRES ANone
                     1700000000
                     (mkDb (Some [1]) (Some [mkRow "api:a" None (Some 7) None 1700003600])))))
  /\ Forall one_of_three
       (rows (snd (set_many (R := Python3) (mkNewCache (Expires 3600) (AStr "api"))
                     [(AStr "c", PyStr "foo"); (AStr "d", PyNone)] DEFAULT_EXPIRES ANone
                     1700000000
                     (mkDb (Some [1]) (Some [mkRow "api:a" None (Some 7) None 1700003600]))))).
Proof.
  assert (H : Forall one_of_three
                (rows (mkDb (Some [1]) (Some [mkRow "api:a" None (Some 7) None 1700003600])))).
  { repeat constructor. }
  split; [exact H|].
  exact (written_rows_one_of_three (R := Python3) (mkNewCache (Expires 3600) (AStr "api"))
           (AStr "b") (PyTuple [PyInt 1; PyStr "foo"])
           [(AStr "c", PyStr "foo"); (AStr "d", PyNone)] DEFAULT_EXPIRES ANone
           1700000000 _ H).
Defined.

(** ** Schema migration *)

(** The patch sets gathered are those whose level exceeds the recorded
    version, in the order of the list. *)
Lemma pending_filter (updates : list (Z * list statement)) (version : Z) :
  pending updates version
  = flat_map snd (filter (fun p => version <? fst p) updates).
Proof.
  induction updates as [|[patchlevel statements] updates IH]; simpl.
  - reflexivity.
  - destruct (version <? patchlevel); simpl; now rewrite IH.
Qed.

Lemma recorded_version_current (db : database) :
  recorded_version db = CURRENT_VERSION ->
  exists vs, version_table db = Some (CURRENT_VERSION :: vs).
Proof.
  unfold recorded_version, CURRENT_VERSION.
  destruct (version_table db) as [[|v vs]|]; try discriminate.
  intros ->. eauto.
Qed.

(** C8. Migration is idempotent.  On a store just created and on a store
    already at the current version [check_version] completes without
    error; both end with the same tables and the same recorded version,
    [CURRENT_VERSION]; on the store already at the current version no patch
    statement runs and the version row is left as it was.  In general the
    statements run are those of the patch sets whose level exceeds the
    recorded version, so none at or below it is applied again. *)
Theorem migration_idempotent (now now' : Z) (db : database) (rows0 : list row) :
  recorded_version db = CURRENT_VERSION ->
  cache_table db = Some rows0 ->
  exists db1 db2,
    check_version now fresh = (Ok tt, db1)
    /\ check_version now' db = (Ok tt, db2)
    /\ schema db1 = schema db2
    /\ recorded_version db1 = CURRENT_VERSION
    /\ recorded_version db2 = CURRENT_VERSION
    /\ version_table db2 = version_table db
    /\ pending UPDATES (recorded_version db) = []
    /\ (forall updates version,
           pending updates version
           = flat_map snd (filter (fun p => version <? fst p) updates)).
Proof.
  intros Hv Hc.
  destruct (recorded_version_current db Hv) as [vs Hvs].
  exists (mkDb (Some [CURRENT_VERSION]) (Some [])).
  exists (mkDb (version_table db)
               (Some (filter (fun r => negb (sql_lt (SInt (r_expires r)) (SInt now'))) rows0))).
  split; [reflexivity|].
  split.
  { unfold check_version. rewrite Hv.
    change (pending UPDATES CURRENT_VERSION) with (@nil statement).
    change (negb (CURRENT_VERSION =? CURRENT_VERSION)) with false.
    unfold bind, cleanup. cbn [execute_all ret execute].
    unfold delete_cache. rewrite Hc. reflexivity. }
  split; [rewrite Hvs; reflexivity|].
  split; [reflexivity|].
  split; [unfold recorded_version; cbn [version_table]; rewrite Hvs; reflexivity|].
  split; [reflexivity|].
  split; [rewrite Hv; reflexivity|].
  apply pending_filter.
Qed.

Lemma migration_idempotent_witness :
  recorded_version (opened 1700000000) = CURRENT_VERSION
  /\ cache_table (opened 1700000000) = Some []
  /\ exists db1 db2,
       check_version 1700000000 fresh = (Ok tt, db1)
       /\ check_version 1700000600 (opened 1700000000) = (Ok tt, db2)
       /\ schema db1 = schema db2
       /\ recorded_version db1 = CURRENT_VERSION
       /\ recorded_version db2 = CURRENT_VERSION
       /\ version_table db2 = version_table (opened 1700000000)
       /\ pending UPDATES (recorded_version (opened 1700000000)) = []
       /\ (forall updates version,
              pending updates version
              = flat_map snd (filter (fun p => version <? fst p) updates)).
Proof.
  split; [reflexivity|]. split; [reflexivity|].
  exact (migration_idempotent 1700000000 1700000600 (opened 1700000000) []
           eq_refl eq_refl).
Defined.

(** A version table left empty is taken for version 0, and the first patch
    then fails on the table it finds. *)
Example check_version_empty_version_table :
  check_version 1700000000 (mkDb (Some []) None)
  = (Raise (OperationalError "table version already exists"), mkDb (Some []) None).
Proof. reflexivity. Qed.

(** ** Reading *)

(** With [allowExpired] the query names a column [expired]; [cache] has
    [expires].  The statement fails to prepare on every store. *)
Lemma get_allowExpired_raises {R : Runtime} (self : NewCache) (key : atom)
    (default : default_arg) (section : atom) (now : Z) (db : database)
    (rows0 : list row) :
  cache_table db = Some rows0 ->
  get self key default section true now db = Raise (no_such_column "expired").
Proof.
  intros H. unfold get, select_cache. rewrite H. reflexivity.
Qed.

Lemma get_many_allowExpired_raises {R : Runtime} (self : NewCache) (keys : list atom)
    (section : atom) (now : Z) (db : database) (rows0 : list row) :
  cache_table db = Some rows0 ->
  get_many self keys section true now db = Raise (no_such_column "expired").
Proof.
  intros H. unfold get_many, select_cache. rewrite H. reflexivity.
Qed.

(** Without [allowExpired] the query has no condition on the expiry: the
    answer does not depend on the clock. *)
Lemma get_ignores_clock {R : Runtime} (self : NewCache) (key : atom)
    (default : default_arg) (section : atom) (now now' : Z) (db : database) :
  get self key default section false now db
  = get self key default section false now' db.
Proof. reflexivity. Qed.

Lemma get_many_ignores_clock {R : Runtime} (self : NewCache) (keys : list atom)
    (section : atom) (now now' : Z) (db : database) :
  get_many self keys section false now db = get_many self keys section false now' db.
Proof. reflexivity. Qed.

(** C1, on the code.  An entry set with [expires = now - 1] is stored with
    that past expiry.  A [get] without [allowExpired] still returns its
    value, not the default; a [get] with [allowExpired] raises
    [OperationalError]. *)
Theorem expired_entry_reads :
  let self := mkNewCache DEFAULT_EXPIRES ANone in
  let now := 1700000000 in
  let db1 := snd (set (R := Python3) self (AStr "x") (PyInt 42) (Expires (now - 1))
                    ANone now (opened now)) in
  rows db1 = [mkRow "x" None (Some 42) None (now - 1)]
  /\ get (R := Python3) self (AStr "x") (Default (PyStr "absent")) ANone false now db1
     = Ok (PyInt 42)
  /\ get (R := Python3) self (AStr "x") (Default (PyStr "absent")) ANone true now db1
     = Raise (OperationalError "no such column: expired").
Proof. repeat split. Qed.

(** The scenario of the spec: [set("x", 42, expires=5)], then reads once
    the five seconds have passed. *)
Example scenario_x_42 :
  let self := mkNewCache DEFAULT_EXPIRES ANone in
  let db1 := snd (set (R := Python3) self (AStr "x") (PyInt 42) (Expires 5)
                    ANone 1700000000 (opened 1700000000)) in
  get (R := Python3) self (AStr "x") NO_DEFAULT ANone false 1700000000 db1 = Ok (PyInt 42)
  /\ get (R := Python3) self (AStr "x") (Default (PyStr "absent")) ANone false 1700000060 db1
     = Ok (PyInt 42)
  /\ get (R := Python3) self (AStr "x") NO_DEFAULT ANone true 1700000060 db1
     = Raise (OperationalError "no such column: expired").
Proof. repeat split. Qed.

(** The sweep is where expired rows go. *)
Example cleanup_sweeps :
  let self := mkNewCache DEFAULT_EXPIRES ANone in
  let db1 := snd (set (R := Python3) self (AStr "x") (PyInt 42) (Expires 5)
                    ANone 1700000000 (opened 1700000000)) in
  rows (snd (cleanup 1700000005 db1)) = [mkRow "x" None (Some 42) None 1700000005]
  /\ rows (snd (cleanup 1700000006 db1)) = [].
Proof. repeat split. Qed.

(** ** Writing *)

(** The rows [DELETE ... WHERE key = ?] removes when the logical key is
    bound: those whose key is the text of the logical key. *)
Lemma raw_key_matches (key : atom) (r : row) :
  sql_eq (SText (r_key r)) (apply_affinity AffText (bind_atom key))
  = match key with
    | ANone => false
    | _ => String.eqb (r_key r) (str key)
    end.
Proof.
  destruct key; cbn [bind_atom apply_affinity str].
  - reflexivity.
  - apply sql_eq_text.
  - apply sql_eq_text.
Qed.

Lemma length_append (a b : string) :
  String.length (a ++ b)%string = (String.length a + String.length b)%nat.
Proof.
  induction a as [|c a IH]; simpl; [reflexivity | now rewrite IH].
Qed.

Lemma append_nonempty_neq (a k : string) : a <> "" -> (a ++ k)%string <> k.
Proof.
  intros Ha E. apply (f_equal String.length) in E.
  rewrite length_append in E.
  destruct a; [congruence | simpl in E; lia].
Qed.

Lemma has_key_filter (k : string) (f : row -> bool) (l : list row) :
  has_key k l = true ->
  (forall r, r_key r = k -> f r = true) ->
  has_key k (filter f l) = true.
Proof.
  unfold has_key. rewrite !existsb_exists.
  intros [r [Hin E]] Hf. exists r. split; [|exact E].
  apply filter_In. split; [exact Hin|]. apply Hf. now apply String.eqb_eq.
Qed.

(** The defect behind C2, in general.  [set] deletes by the logical key and
    inserts under the full key.  Whenever the accessor has a prefix or the
    call a section, a row already stored under the full key survives the
    [DELETE], and the [INSERT], once its integers are bound, is refused by
    the primary key. *)
Lemma set_existing_under_prefix_raises {R : Runtime} (self : NewCache) (key : atom)
    (value : pyval) (expires : expiry) (section : atom) (now e : Z) (db : database) :
  _get_expiry self expires = Ok e ->
  set_fits key value e = true ->
  is_not_None key = true ->
  _get_key self (AStr "") section <> "" ->
  has_key (_get_key self key section) (rows db) = true ->
  fst (set self key value expires section now db)
  = Raise (IntegrityError "UNIQUE constraint failed: cache.key")
  /\ has_key (_get_key self key section)
       (rows (snd (set self key value expires section now db))) = true.
Proof.
  intros He Hf Hk Hp Hin.
  rewrite (set_fits_run self key value expires section now e db He Hf).
  unfold set_run, bind. cbn [execute].
  assert (Hc : exists l, cache_table db = Some l).
  { unfold rows in Hin. destruct (cache_table db); [eauto | discriminate]. }
  destruct Hc as [l Hc].
  unfold delete_cache. rewrite Hc, prepare_key_eq.
  unfold insert_cache. cbn [cache_table version_table].
  rewrite parameters_key.
  assert (Hkeep : has_key (_get_key self key section)
                    (filter (fun r => negb (sql_eq (SText (r_key r))
                                              (apply_affinity AffText (bind_atom key)))) l)
                  = true).
  { apply has_key_filter.
    - unfold rows in Hin. now rewrite Hc in Hin.
    - intros r Hr. rewrite raw_key_matches.
      destruct key; [reflexivity| |];
        (apply negb_true_iff, String.eqb_neq; rewrite Hr;
         rewrite (_get_key_split self _ section Hk);
         now apply append_nonempty_neq). }
  rewrite Hkeep. split; [reflexivity|]. exact Hkeep.
Qed.

(** C2, on the code.  Under the prefix ["api"], a second [set] of the same
    key raises [IntegrityError] and leaves the first row in place: the row
    is not replaced. *)
Theorem set_again_under_prefix :
  let self := mkNewCache (Expires 21600) (AStr "api") in
  let now := 1700000000 in
  let first := set (R := Python3) self (AStr "x") (PyInt 1) DEFAULT_EXPIRES ANone now
                 (opened now) in
  fst first = Ok tt
  /\ rows (snd first) = [mkRow "api:x" None (Some 1) None (now + 21600)]
  /\ set (R := Python3) self (AStr "x") (PyInt 2) DEFAULT_EXPIRES ANone now (snd first)
     = (Raise (IntegrityError "UNIQUE constraint failed: cache.key"), snd first)
  /\ get (R := Python3) self (AStr "x") NO_DEFAULT ANone false now (snd first)
     = Ok (PyInt 1).
Proof. repeat split. Qed.

(** The same [DELETE] removes the row another accessor, without prefix,
    stored under the bare key. *)
Example set_under_prefix_deletes_bare_key :
  let db := mkDb (Some [1]) (Some [mkRow "x" None (Some 7) None 1700009999]) in
  rows (snd (set (R := Python3) (mkNewCache (Expires 21600) (AStr "api"))
               (AStr "x") (PyInt 1) DEFAULT_EXPIRES ANone 1700000000 db))
  = [mkRow "api:x" None (Some 1) None 1700021600].
Proof. reflexivity. Qed.

(** [set_many] has the same shape. *)
Example set_many_again_under_section :
  let self := mkNewCache (Expires 21600) (AStr "api") in
  let now := 1700000000 in
  let data := [(AStr "Xanthos", PyInt 183452271)] in
  let first := set_many (R := Python3) self data DEFAULT_EXPIRES (AStr "namesToId") now
                 (opened now) in
  fst first = Ok tt
  /\ set_many (R := Python3) self data DEFAULT_EXPIRES (AStr "namesToId") now (snd first)
     = (Raise (IntegrityError "UNIQUE constraint failed: cache.key"), snd first).
Proof. repeat split. Qed.

(** Without prefix and section the logical key is the full key, and [set]
    does replace. *)
Example set_again_without_prefix :
  let self := mkNewCache (Expires 21600) ANone in
  let now := 1700000000 in
  let first := set (R := Python3) self (AStr "x") (PyInt 1) DEFAULT_EXPIRES ANone now
                 (opened now) in
  set (R := Python3) self (AStr "x") (PyInt 2) DEFAULT_EXPIRES ANone now (snd first)
  = (Ok tt, mkDb (Some [1]) (Some [mkRow "x" None (Some 2) None (now + 21600)])).
Proof. reflexivity. Qed.

(** ** Deleting *)

(** C3, on the code.  [delete] calls itself, never [delete_many]: whatever
    the recursion limit, the key and the store, it ends in
    [RecursionError] and the store is as it was. *)
Theorem delete_never_reaches_store (depth : nat) (self : NewCache)
    (key : pyval) (section : atom) (db : database) :
  delete depth self key section db = (Raise RecursionError, db).
Proof.
  revert key. induction depth as [|depth IH]; intros key; cbn [delete].
  - reflexivity.
  - apply IH.
Qed.

Example delete_leaves_row :
  let db := mkDb (Some [1]) (Some [mkRow "x" None (Some 42) None 1700000005]) in
  delete 1000 (mkNewCache DEFAULT_EXPIRES ANone) (PyStr "x") ANone db
  = (Raise RecursionError, db).
Proof. reflexivity. Qed.

(** [delete_many], the call [delete] was to make, removes the row and
    accepts a key that is absent. *)
Lemma delete_many_removes (self : NewCache) (key : atom) (section : atom)
    (db : database) (rows0 : list row) :
  cache_table db = Some rows0 ->
  exists db',
    delete_many self [key] section db = (Ok tt, db')
    /\ has_key (_get_key self key section) (rows db') = false
    /\ (forall r, In r (rows db') <->
                  In r rows0 /\ r_key r <> _get_key self key section).
Proof.
  intros Hc. unfold delete_many. cbn [execute map].
  unfold delete_cache. rewrite Hc, prepare_key_in.
  eexists. split; [reflexivity|].
  assert (Hiff : forall r,
             In r (filter (fun r => negb (existsb
                      (fun p => sql_eq (SText (r_key r)) (apply_affinity AffText p))
                      [SText (_get_key self key section)])) rows0)
             <-> In r rows0 /\ r_key r <> _get_key self key section).
  { intros r. rewrite filter_In. cbn [existsb apply_affinity].
    rewrite sql_eq_text, orb_false_r, negb_true_iff, String.eqb_neq. reflexivity. }
  split; [|exact Hiff].
  unfold rows. cbn [cache_table].
  destruct (has_key _ _) eqn:E; [|reflexivity].
  apply has_key_In, in_map_iff in E as [r [Er Hr]].
  apply Hiff in Hr. tauto.
Qed.

(** ** The codec *)

(** X24. With the definitions of [to_blob] and [from_blob] the module takes
    when [six.PY2] is false, and a [pickle] that loads what it dumps,
    decoding the encoding of a value gives the value back, for every
    integer, text and structured value.  The encoder puts an integer in the
    integer slot, a text in the text slot and the serialization of anything
    else in the blob slot; the decoder returns the integer or text slot
    when it is set and deserializes the blob otherwise. *)
Theorem codec_round_trip {R : Runtime} (v : pyval) :
  PY2 = false ->
  (forall w, pickle_loads (pickle_dumps w) = Ok w) ->
  to_python (from_python v) = Ok v
  /\ from_python v
     = match v with
       | PyInt z => (None, Some z, None)
       | PyStr s => (None, None, Some s)
       | _ => (Some (pickle_dumps v), None, None)
       end
  /\ (forall b i s, to_python (b, Some i, s) = Ok (PyInt i))
  /\ (forall b s, to_python (b, None, Some s) = Ok (PyStr s))
  /\ (forall b, to_python (Some b, None, None) = pickle_loads b).
Proof.
  intros Hpy Hrt.
  assert (Hblob : forall b, to_python (Some b, None, None) = pickle_loads b).
  { intros b. unfold to_python, from_blob. rewrite Hpy. reflexivity. }
  assert (Henc : forall w, to_blob (pickle_dumps w) = pickle_dumps w).
  { intros w. unfold to_blob. now destruct PY2. }
  split.
  - destruct v; try reflexivity;
      unfold from_python; rewrite Henc, Hblob; apply Hrt.
  - split; [destruct v; unfold from_python; now rewrite ?Henc|].
    split; [reflexivity|]. split; [reflexivity | exact Hblob].
Qed.

Lemma codec_round_trip_witness :
  @PY2 Python3 = false
  /\ (forall w, @pickle_loads Python3 (@pickle_dumps Python3 w) = Ok w)
  /\ to_python (R := Python3)
       (from_python (R := Python3)
          (PyDict [(PyStr "characterName", PyStr "Xanthos");
                   (PyStr "characterID", PyInt 183452271);
                   (PyStr "history", PyList [PyTuple [PyInt 1; PyNone]])]))
     = Ok (PyDict [(PyStr "characterName", PyStr "Xanthos");
                   (PyStr "characterID", PyInt 183452271);
                   (PyStr "history", PyList [PyTuple [PyInt 1; PyNone]])]).
Proof.
  split; [reflexivity|]. split; [exact pickle_loads_dumps|].
  exact (proj1 (codec_round_trip (R := Python3) _ eq_refl pickle_loads_dumps)).
Defined.

Example encode_examples :
  from_python (R := Python3) (PyInt 42) = (None, Some 42, None)
  /\ from_python (R := Python3) (PyStr "foo") = (None, None, Some "foo")
  /\ to_python (R := Python3) (from_python (R := Python3) (PyInt 0)) = Ok (PyInt 0)
  /\ to_python (R := Python3) (from_python (R := Python3) (PyStr "")) = Ok (PyStr "").
Proof. repeat split. Qed.

(** A row with the three value columns null has nothing to decode. *)
Example decode_all_null : to_python (R := Python3) (None, None, None) = Raise TypeError.
Proof. reflexivity. Qed.

(** Under [six.PY2] the module's [from_blob] is [str(x[0][0])], which keeps
    the first byte of the blob: a structured value does not come back. *)
Example python2_blob_not_restored :
  to_python (R := Python2) (from_python (R := Python2) (PyList [PyInt 1; PyInt 2]))
  = Raise UnpicklingError.
Proof. reflexivity. Qed.

(** Under [six.PY2], whatever the serializer, the decoder of a structured
    value is handed the first byte of its serialization and no more. *)
Lemma python2_decodes_first_byte {R : Runtime} (v : pyval) :
  PY2 = true ->
  (forall z, v <> PyInt z) ->
  (forall s, v <> PyStr s) ->
  to_python (from_python v)
  = match pickle_dumps v with
    | [] => Raise IndexError
    | b :: _ => pickle_loads [b]
    end.
Proof.
  intros Hpy Hi Hs.
  destruct v; try (now elim (Hi z)); try (now elim (Hs s));
    unfold from_python, to_python, to_blob, from_blob; rewrite Hpy;
    destruct (pickle_dumps _); reflexivity.
Qed.

(** C4, on the code.  Under [six.PY2] the round trip fails for a structured
    value: [from_python] serializes [[1, 2]] into the blob slot,
    [from_blob] gives the decoder the first byte of the blob only, and
    [to_python] does not return the value.  With the definitions taken when
    [six.PY2] is false the same value comes back. *)
Theorem python2_round_trip_fails :
  from_python (R := Python2) (PyList [PyInt 1; PyInt 2])
  = (Some (Pickle.dumps (PyList [PyInt 1; PyInt 2])), None, None)
  /\ from_blob (R := Python2) (Pickle.dumps (PyList [PyInt 1; PyInt 2]))
     = Ok (firstn 1 (Pickle.dumps (PyList [PyInt 1; PyInt 2])))
  /\ to_python (R := Python2) (from_python (R := Python2) (PyList [PyInt 1; PyInt 2]))
     = Raise UnpicklingError
  /\ to_python (R := Python2) (from_python (R := Python2) (PyList [PyInt 1; PyInt 2]))
     <> Ok (PyList [PyInt 1; PyInt 2])
  /\ to_python (R := Python3) (from_python (R := Python3) (PyList [PyInt 1; PyInt 2]))
     = Ok (PyList [PyInt 1; PyInt 2]).
Proof.
  split; [reflexivity|]. split; [reflexivity|]. split; [reflexivity|].
  split; [discriminate | reflexivity].
Qed.

(** ** Non-text keys *)

(** [delete] does not look at its key. *)
Lemma delete_any_key (depth : nat) (self : NewCache) (k1 k2 : pyval) (section : atom)
    (db : database) :
  delete depth self k1 section db = delete depth self k2 section db.
Proof.
  revert k1 k2. induction depth as [|depth IH]; intros k1 k2; cbn [delete].
  - reflexivity.
  - apply IH.
Qed.







(** [set] binds the key as it was passed to its [DELETE]: on any store with
    a [cache] table, an integer key outside SQLite's 64 bits raises
    [OverflowError] there and nothing is written, whatever the value. *)
Lemma set_integer_key_out_of_range {R : Runtime} (self : NewCache) (z : Z)
    (value : pyval) (expires : expiry) (section : atom) (now e : Z) (db : database)
    (rows0 : list row) :
  _get_expiry self expires = Ok e ->
  cache_table db = Some rows0 ->
  fits_int64 z = false ->
  set self (AInt z) value expires section now db = (Raise OverflowError, db).
Proof.
  intros He Hc Hz. unfold set. rewrite He. unfold bind, cursor_execute at 1.
  cbn [preparation_error]. rewrite Hc, prepare_key_eq.
  cbn [atom_ints forallb]. now rewrite Hz.
Qed.

(** C10, on the code.  An integer key and its text are not the same entry
    to [set]: the [DELETE] binds the key as it was passed.  For the key
    [2^63] the binding raises [OverflowError] and nothing is stored, while
    [set] under the text of that key stores a row; [get] builds the same
    full key for both, and [delete] reaches the store for neither. *)
Theorem integer_key_beyond_int64 :
  set (R := Python3) (mkNewCache DEFAULT_EXPIRES ANone) (AInt (2 ^ 63)) (PyInt 1)
    (Expires 5) ANone 1700000000 (opened 1700000000)
  = (Raise OverflowError, opened 1700000000)
  /\ set (R := Python3) (mkNewCache DEFAULT_EXPIRES ANone) (AStr (str (AInt (2 ^ 63))))
       (PyInt 1) (Expires 5) ANone 1700000000 (opened 1700000000)
     = (Ok tt, mkDb (Some [1])
                 (Some [mkRow "9223372036854775808" None (Some 1) None 1700000005]))
  /\ _get_key (mkNewCache DEFAULT_EXPIRES ANone) (AInt (2 ^ 63)) ANone
     = _get_key (mkNewCache DEFAULT_EXPIRES ANone) (AStr (str (AInt (2 ^ 63)))) ANone
  /\ delete 1000 (mkNewCache DEFAULT_EXPIRES ANone) (PyInt (2 ^ 63)) ANone
       (opened 1700000000)
     = (Raise RecursionError, opened 1700000000).
Proof. repeat split. Qed.

(** * Further properties of the engine *)

(** ** Invariants of the store *)

Lemma preserves_apply {A : Type} (I : database -> Prop) (m : M A) (db : database) :
  preserves I m -> I db -> I (snd (m db)).
Proof. intros H. apply H. Qed.

(** X1. The keys of [cache] stay distinct through every operation that
    writes: [set], [set_many], [delete_many], the sweep and the version
    check, whatever their outcome. *)
Theorem keys_stay_unique {R : Runtime} (self : NewCache) (key : atom) (value : pyval)
    (data : pydict) (keys : list atom) (expires : expiry) (section : atom) (now : Z)
    (db : database) :
  unique_keys db ->
  unique_keys (snd (set self key value expires section now db))
  /\ unique_keys (snd (set_many self data expires section now db))
  /\ unique_keys (snd (delete_many self keys section db))
  /\ unique_keys (snd (cleanup now db))
  /\ unique_keys (snd (check_version now db)).
Proof.
  intros H.
  split; [now apply set_unique_keys|].
  split; [now apply set_many_unique_keys|].
  split; [now apply execute_unique_keys|].
  split; [now apply execute_unique_keys|].
  unfold check_version. apply preserves_apply; [|exact H].
  apply preserves_bind.
  - apply preserves_execute_all. intros; apply execute_unique_keys.
  - intros _. apply preserves_bind.
    + destruct (negb _); [apply execute_unique_keys | apply preserves_ret].
    + intros _. apply execute_unique_keys.
Qed.

Lemma keys_stay_unique_witness :
  unique_keys (mkDb (Some [1]) (Some [mkRow "api:a" None (Some 7) None 1700003600;
                                      mkRow "b" None None (Some "foo") 1700000001]))
  /\ unique_keys
       (snd (set (R := Python3) (mkNewCache (Expires 3600) (AStr "api")) (AStr "a")
               (PyInt 8) DEFAULT_EXPIRES ANone 1700000000
               (mkDb (Some [1]) (Some [mkRow "api:a" None (Some 7) None 1700003600;
                                       mkRow "b" None None (Some "foo") 1700000001]))))
  /\ unique_keys
       (snd (cleanup 1700000002
               (mkDb (Some [1]) (Some [mkRow "api:a" None (Some 7) None 1700003600;
                                       mkRow "b" None None (Some "foo") 1700000001])))).
Proof.
  assert (H : unique_keys
                (mkDb (Some [1]) (Some [mkRow "api:a" None (Some 7) None 1700003600;
                                        mkRow "b" None None (Some "foo") 1700000001]))).
  { unfold unique_keys. simpl. repeat constructor; simpl; intuition discriminate. }
  destruct (keys_stay_unique (R := Python3) (mkNewCache (Expires 3600) (AStr "api"))
              (AStr "a") (PyInt 8) [] [] DEFAULT_EXPIRES ANone 1700000002 _ H)
    as [_ [_ [_ [Hc _]]]].
  destruct (keys_stay_unique (R := Python3) (mkNewCache (Expires 3600) (AStr "api"))
              (AStr "a") (PyInt 8) [] [] DEFAULT_EXPIRES ANone 1700000000 _ H)
    as [Hs _].
  split; [exact H|]. split; [exact Hs | exact Hc].
Defined.

(** ** What a successful [set] leaves *)

Lemma filter_ext_in_bool {A : Type} (f g : A -> bool) (l : list A) :
  (forall x, f x = g x) -> filter f l = filter g l.
Proof.
  intros H. induction l as [|x l IH]; simpl; [reflexivity|].
  now rewrite H, IH.
Qed.








(** ** Reading a key *)

Lemma select_key (k : string) (db : database) (rows0 : list row) :
  cache_table db = Some rows0 ->
  select_cache (WEq "key" (SText k)) db
  = Ok (filter (fun r => String.eqb (r_key r) k) rows0).
Proof.
  intros H. unfold select_cache. rewrite H, prepare_key_eq.
  f_equal. apply filter_ext_in_bool. intros r. apply sql_eq_text.
Qed.

Lemma filter_key_absent (k : string) (l : list row) :
  has_key k l = false -> filter (fun r => String.eqb (r_key r) k) l = [].
Proof.
  unfold has_key. induction l as [|r l IH]; simpl; [reflexivity|].
  destruct (String.eqb (r_key r) k); simpl; [discriminate | exact IH].
Qed.

Lemma filter_key_unique (l : list row) (r : row) :
  NoDup (map r_key l) -> In r l ->
  filter (fun x => String.eqb (r_key x) (r_key r)) l = [r].
Proof.
  induction l as [|x l IH]; simpl; intros Hnd Hin; [contradiction|].
  inversion Hnd as [|? ? Hx Hl]; subst.
  destruct Hin as [->|Hin].
  - rewrite String.eqb_refl. f_equal. apply filter_key_absent.
    destruct (has_key (r_key r) l) eqn:E; [|reflexivity].
    apply has_key_In in E. contradiction.
  - destruct (String.eqb_spec (r_key x) (r_key r)) as [E|_]; [|now apply IH].
    exfalso. apply Hx. rewrite E. now apply in_map.
Qed.

Lemma same_key_same_row (l : list row) (r r' : row) :
  NoDup (map r_key l) -> In r l -> In r' l -> r_key r = r_key r' -> r = r'.
Proof.
  intros Hnd Hr Hr' E.
  pose proof (filter_key_unique l r Hnd Hr) as F.
  pose proof (filter_key_unique l r' Hnd Hr') as F'.
  rewrite E in F. rewrite F in F'. now inversion F'.
Qed.

Lemma rows_table (db : database) (r : row) :
  In r (rows db) -> exists rows0, cache_table db = Some rows0 /\ rows db = rows0.
Proof.
  unfold rows. destruct (cache_table db); [eauto | contradiction].
Qed.

(** X3. A key that has no row reads as the default the caller passed, or as
    [None] when there is none; nothing is raised. *)
Theorem get_missing_key {R : Runtime} (self : NewCache) (key : atom)
    (default : default_arg) (section : atom) (now : Z) (db : database)
    (rows0 : list row) :
  cache_table db = Some rows0 ->
  has_key (_get_key self key section) rows0 = false ->
  get self key default section false now db = Ok (default_value default).
Proof.
  intros Hc Hk. unfold get. rewrite (select_key _ db rows0 Hc).
  rewrite (filter_key_absent _ _ Hk). reflexivity.
Qed.

Lemma get_missing_key_witness :
  cache_table (opened 1700000000) = Some []
  /\ has_key (_get_key (mkNewCache DEFAULT_EXPIRES (AStr "api")) (AStr "systemJumps") ANone)
       [] = false
  /\ get (R := Python3) (mkNewCache DEFAULT_EXPIRES (AStr "api")) (AStr "systemJumps")
       NO_DEFAULT ANone false 1700000000 (opened 1700000000) = Ok PyNone.
Proof.
  split; [reflexivity|]. split; [reflexivity|].
  exact (get_missing_key (R := Python3) (mkNewCache DEFAULT_EXPIRES (AStr "api"))
           (AStr "systemJumps") NO_DEFAULT ANone 1700000000 (opened 1700000000) []
           eq_refl eq_refl).
Defined.

(** X4. Where keys are distinct, [get] without [allowExpired] returns the
    decoded value of the row stored under the full key, at any clock
    reading: the expiry of the row is not looked at. *)
Theorem get_stored_row {R : Runtime} (self : NewCache) (key : atom)
    (default : default_arg) (section : atom) (now : Z) (db : database) (r : row) :
  unique_keys db ->
  In r (rows db) ->
  r_key r = _get_key self key section ->
  get self key default section false now db = to_python (row_fields r).
Proof.
  intros Hu Hin Hk. destruct (rows_table db r Hin) as [rows0 [Hc Hr]].
  unfold get. rewrite (select_key _ db rows0 Hc), <- Hk.
  unfold unique_keys in Hu. rewrite Hr in Hu, Hin.
  now rewrite (filter_key_unique rows0 r Hu Hin).
Qed.

Lemma get_stored_row_witness :
  unique_keys (mkDb (Some [1]) (Some [mkRow "api:a" None (Some 7) None 1700003600]))
  /\ In (mkRow "api:a" None (Some 7) None 1700003600)
       (rows (mkDb (Some [1]) (Some [mkRow "api:a" None (Some 7) None 1700003600])))
  /\ "api:a" = _get_key (mkNewCache DEFAULT_EXPIRES (AStr "api")) (AStr "a") ANone
  /\ get (R := Python3) (mkNewCache DEFAULT_EXPIRES (AStr "api")) (AStr "a")
       (Default (PyStr "absent")) ANone false 1800000000
       (mkDb (Some [1]) (Some [mkRow "api:a" None (Some 7) None 1700003600]))
     = Ok (PyInt 7).
Proof.
  assert (Hu : unique_keys
                 (mkDb (Some [1]) (Some [mkRow "api:a" None (Some 7) None 1700003600]))).
  { unfold unique_keys. simpl. repeat constructor. intros []. }
  assert (Hin : In (mkRow "api:a" None (Some 7) None 1700003600)
                  (rows (mkDb (Some [1])
                           (Some [mkRow "api:a" None (Some 7) None 1700003600])))).
  { now left. }
  split; [exact Hu|]. split; [exact Hin|]. split; [reflexivity|].
  exact (get_stored_row (R := Python3) (mkNewCache DEFAULT_EXPIRES (AStr "api")) (AStr "a")
           (Default (PyStr "absent")) ANone 1800000000 _ _ Hu Hin eq_refl).
Defined.


Lemma decode_encode {R : Runtime} (v : pyval) :
  PY2 = false ->
  (forall w, pickle_loads (pickle_dumps w) = Ok w) ->
  to_python (from_python v) = Ok v.
Proof.
  intros Hpy Hrt.
  destruct v; try reflexivity;
    unfold from_python, to_python, to_blob, from_blob; rewrite Hpy; apply Hrt.
Qed.

(** X6. What [set] stored, [get] returns: on a store with distinct keys, a
    [set] that succeeds is followed by a [get] of the same key and section
    that returns the value, at any later clock reading. *)
Theorem set_then_get {R : Runtime} (self : NewCache) (key : atom) (value : pyval)
    (expires : expiry) (default : default_arg) (section : atom) (now now' : Z)
    (db db' : database) :
  PY2 = false ->
  (forall w, pickle_loads (pickle_dumps w) = Ok w) ->
  unique_keys db ->
  set self key value expires section now db = (Ok tt, db') ->
  get self key default section false now' db' = Ok value.
Proof.
  intros Hpy Hrt Hu Hs.
  destruct (_get_expiry self expires) as [e|x] eqn:He.
  - pose proof (set_ok_row self key value expires section now e db db' He Hs) as Hin.
    pose proof (set_unique_keys self key value expires section now db Hu) as Hu'.
    rewrite Hs in Hu'. cbn [snd] in Hu'.
    rewrite (get_stored_row self key default section now' db' _ Hu' Hin
               (parameters_key self key value _ section)).
    rewrite parameters_fields. now apply decode_encode.
  - unfold set in Hs. rewrite He in Hs. inversion Hs.
Qed.

Lemma set_then_get_witness :
  @PY2 Python3 = false
  /\ (forall w, @pickle_loads Python3 (@pickle_dumps Python3 w) = Ok w)
  /\ unique_keys (opened 1700000000)
  /\ set (R := Python3) (mkNewCache (Expires 10800) (AStr "jumpbridge")) (AStr "url")
       (PyList [PyTuple [PyStr "A"; PyStr "<->"; PyStr "B"]]) DEFAULT_EXPIRES (AInt 10000047)
       1700000000 (opened 1700000000)
     = (Ok tt, mkDb (Some [1])
                 (Some [parameters (R := Python3)
                          (mkNewCache (Expires 10800) (AStr "jumpbridge")) (AStr "url")
                          (PyList [PyTuple [PyStr "A"; PyStr "<->"; PyStr "B"]])
                          1700010800 (AInt 10000047)]))
  /\ get (R := Python3) (mkNewCache (Expires 10800) (AStr "jumpbridge")) (AStr "url")
       NO_DEFAULT (AInt 10000047) false 1700000060
       (mkDb (Some [1])
          (Some [parameters (R := Python3)
                   (mkNewCache (Expires 10800) (AStr "jumpbridge")) (AStr "url")
                   (PyList [PyTuple [PyStr "A"; PyStr "<->"; PyStr "B"]])
                   1700010800 (AInt 10000047)]))
     = Ok (PyList [PyTuple [PyStr "A"; PyStr "<->"; PyStr "B"]]).
Proof.
  assert (Hu : unique_keys (opened 1700000000)) by constructor.
  split; [reflexivity|]. split; [exact pickle_loads_dumps|]. split; [exact Hu|].
  split; [reflexivity|].
  exact (set_then_get (R := Python3) (mkNewCache (Expires 10800) (AStr "jumpbridge"))
           (AStr "url") (PyList [PyTuple [PyStr "A"; PyStr "<->"; PyStr "B"]])
           DEFAULT_EXPIRES NO_DEFAULT (AInt 10000047) 1700000000 1700000060
           (opened 1700000000) _ eq_refl pickle_loads_dumps Hu eq_refl).
Defined.

(** ** The sweep *)

Lemma sql_lt_int (a b : Z) : sql_lt (SInt a) (SInt b) = (a <? b).
Proof. unfold sql_lt, sql_compare, Z.ltb. now destruct (a ?= b). Qed.

Lemma cleanup_rows (now : Z) (db : database) (rows0 : list row) :
  cache_table db = Some rows0 ->
  cleanup now db
  = (Ok tt, mkDb (version_table db) (Some (filter (fun r => now <=? r_expires r) rows0))).
Proof.
  intros H. unfold cleanup. cbn [execute]. unfold delete_cache. rewrite H.
  cbn [prepare with_column cache_column String.eqb Ascii.eqb Bool.eqb apply_affinity].
  do 3 f_equal. apply filter_ext_in_bool. intros r.
  rewrite sql_lt_int, Z.leb_antisym. reflexivity.
Qed.

(** X7. The sweep removes the rows whose expiry lies before the clock
    reading and no other: a row that expires at that very second stays.
    [version] is not touched. *)
Theorem cleanup_removes_expired (now : Z) (db : database) (rows0 : list row) :
  cache_table db = Some rows0 ->
  exists db',
    cleanup now db = (Ok tt, db')
    /\ version_table db' = version_table db
    /\ (forall r, In r (rows db') <-> In r rows0 /\ now <= r_expires r).
Proof.
  intros H. rewrite (cleanup_rows now db rows0 H). eexists.
  split; [reflexivity|]. split; [reflexivity|].
  intros r. unfold rows. cbn [cache_table]. rewrite filter_In, Z.leb_le. reflexivity.
Qed.

Lemma cleanup_removes_expired_witness :
  cache_table (mkDb (Some [1]) (Some [mkRow "a" None (Some 7) None 1700000005;
                                      mkRow "b" None (Some 8) None 1700000004]))
  = Some [mkRow "a" None (Some 7) None 1700000005; mkRow "b" None (Some 8) None 1700000004]
  /\ exists db',
       cleanup 1700000005
         (mkDb (Some [1]) (Some [mkRow "a" None (Some 7) None 1700000005;
                                 mkRow "b" None (Some 8) None 1700000004]))
       = (Ok tt, db')
       /\ version_table db' = Some [1]
       /\ (forall r, In r (rows db') <->
                     In r [mkRow "a" None (Some 7) None 1700000005;
                           mkRow "b" None (Some 8) None 1700000004]
                     /\ 1700000005 <= r_expires r).
Proof.
  split; [reflexivity|].
  exact (cleanup_removes_expired 1700000005
           (mkDb (Some [1]) (Some [mkRow "a" None (Some 7) None 1700000005;
                                   mkRow "b" None (Some 8) None 1700000004]))
           _ eq_refl).
Defined.

Lemma set_row_swept_iff {R : Runtime} (self : NewCache) (key : atom) (value : pyval)
    (expires : expiry) (section : atom) (now e t : Z) (db db' : database) :
  _get_expiry self expires = Ok e ->
  unique_keys db ->
  set self key value expires section now db = (Ok tt, db') ->
  (has_key (_get_key self key section) (rows (snd (cleanup t db'))) = true
   <-> t <= resolve now e).
Proof.
  intros He Hu Hs.
  pose proof (set_ok_row self key value expires section now e db db' He Hs) as Hin.
  pose proof (set_unique_keys self key value expires section now db Hu) as Hu'.
  rewrite Hs in Hu'. cbn [snd] in Hu'.
  destruct (rows_table db' _ Hin) as [rows' [Hc Hr]].
  rewrite (cleanup_rows t db' rows' Hc). cbn [snd]. unfold rows at 1. cbn [cache_table].
  unfold unique_keys in Hu'. rewrite Hr in Hu', Hin.
  rewrite has_key_In, in_map_iff. split.
  - intros [r [Hk Hf]]. apply filter_In in Hf as [Hf Ht].
    rewrite <- parameters_key with (value := value) (e := resolve now e) in Hk.
    apply (same_key_same_row rows' _ _ Hu' Hf Hin) in Hk. subst r.
    rewrite parameters_expires in Ht. now apply Z.leb_le.
  - intros Ht. exists (parameters self key value (resolve now e) section).
    split; [apply parameters_key|]. apply filter_In. split; [exact Hin|].
    rewrite parameters_expires. now apply Z.leb_le.
Qed.

(** X8. An entry written by [set] is swept exactly by the sweeps that run
    after its resolved expiry: on a store with distinct keys, after a
    successful [set] the row under the full key survives a sweep at time
    [t] if and only if [t] is at most the expiry that was stored. *)
Theorem set_then_cleanup {R : Runtime} (self : NewCache) (key : atom) (value : pyval)
    (expires : expiry) (section : atom) (now e t : Z) (db db' : database) :
  _get_expiry self expires = Ok e ->
  unique_keys db ->
  set self key value expires section now db = (Ok tt, db') ->
  (has_key (_get_key self key section) (rows (snd (cleanup t db'))) = true
   <-> t <= resolve now e).
Proof. apply set_row_swept_iff. Qed.

Lemma set_then_cleanup_witness :
  _get_expiry (mkNewCache DEFAULT_EXPIRES ANone) (Expires 5) = Ok 5
  /\ unique_keys (opened 1700000000)
  /\ set (R := Python3) (mkNewCache DEFAULT_EXPIRES ANone) (AStr "x") (PyInt 42)
       (Expires 5) ANone 1700000000 (opened 1700000000)
     = (Ok tt, mkDb (Some [1]) (Some [mkRow "x" None (Some 42) None 1700000005]))
  /\ (has_key "x"
        (rows (snd (cleanup 1700000006
                      (mkDb (Some [1]) (Some [mkRow "x" None (Some 42) None 1700000005])))))
      = true
      <-> 1700000006 <= resolve 1700000000 5).
Proof.
  assert (Hu : unique_keys (opened 1700000000)) by constructor.
  split; [reflexivity|]. split; [exact Hu|]. split; [reflexivity|].
  exact (set_then_cleanup (R := Python3) (mkNewCache DEFAULT_EXPIRES ANone) (AStr "x")
           (PyInt 42) (Expires 5) ANone 1700000000 5 1700000006 (opened 1700000000) _
           eq_refl Hu eq_refl).
Defined.

(** ** Deleting by batch *)

Lemma key_in_texts (k : string) (ks : list string) :
  existsb (fun p => sql_eq (SText k) (apply_affinity AffText p)) (map SText ks) = true
  <-> In k ks.
Proof.
  rewrite existsb_exists. split.
  - intros [p [Hp E]]. apply in_map_iff in Hp as [s [<- Hs]].
    cbn [apply_affinity] in E. rewrite sql_eq_text in E.
    apply String.eqb_eq in E. now subst.
  - intros H. exists (SText k). split; [now apply in_map|].
    cbn [apply_affinity]. rewrite sql_eq_text. apply String.eqb_refl.
Qed.

(** X9. [delete_many] removes the rows stored under the full keys of the
    keys it is given and leaves every other row; a key that has no row is
    no error, and [version] is not touched. *)
Theorem delete_many_outcome (self : NewCache) (keys : list atom) (section : atom)
    (db : database) (rows0 : list row) :
  cache_table db = Some rows0 ->
  exists db',
    delete_many self keys section db = (Ok tt, db')
    /\ version_table db' = version_table db
    /\ (forall r, In r (rows db') <->
                  In r rows0
                  /\ ~ In (r_key r) (map (fun k => _get_key self k section) keys)).
Proof.
  intros Hc. unfold delete_many. cbn [execute]. unfold delete_cache.
  rewrite Hc, prepare_key_in. eexists.
  split; [reflexivity|]. split; [reflexivity|].
  intros r. unfold rows. cbn [cache_table]. rewrite filter_In, negb_true_iff.
  rewrite <- (map_map (fun k => _get_key self k section) SText).
  rewrite <- key_in_texts.
  destruct (existsb _ _); intuition congruence.
Qed.

Lemma delete_many_outcome_witness :
  cache_table (mkDb (Some [1]) (Some [mkRow "api:a" None (Some 7) None 1700003600]))
  = Some [mkRow "api:a" None (Some 7) None 1700003600]
  /\ exists db',
       delete_many (mkNewCache DEFAULT_EXPIRES (AStr "api")) [AStr "a"; AStr "zz"] ANone
         (mkDb (Some [1]) (Some [mkRow "api:a" None (Some 7) None 1700003600]))
       = (Ok tt, db')
       /\ version_table db' = Some [1]
       /\ (forall r, In r (rows db') <->
                     In r [mkRow "api:a" None (Some 7) None 1700003600]
                     /\ ~ In (r_key r)
                          (map (fun k => _get_key (mkNewCache DEFAULT_EXPIRES (AStr "api"))
                                           k ANone)
                             [AStr "a"; AStr "zz"])).
Proof.
  split; [reflexivity|].
  exact (delete_many_outcome (mkNewCache DEFAULT_EXPIRES (AStr "api")) [AStr "a"; AStr "zz"]
           ANone (mkDb (Some [1]) (Some [mkRow "api:a" None (Some 7) None 1700003600]))
           _ eq_refl).
Defined.

(** ** Empty batches *)




(** ** The version check on any store *)

Lemma check_version_low (now : Z) (db : database) :
  recorded_version db < CURRENT_VERSION ->
  check_version now db
  = (execute_all [CREATE_TABLE_version; INSERT_INTO_version 0; CREATE_TABLE_cache] ;;;
     execute (UPDATE_version_SET CURRENT_VERSION) ;;;
     cleanup now) db.
Proof.
  intros H. unfold check_version, CURRENT_VERSION in *.
  cbn [pending UPDATES].
  destruct (Z.ltb_spec (recorded_version db) 1) as [_|]; [|lia].
  destruct (Z.eqb_spec (recorded_version db) 1) as [|_]; [lia|].
  now rewrite app_nil_r.
Qed.

Lemma check_version_high (now : Z) (db : database) :
  CURRENT_VERSION <= recorded_version db ->
  check_version now db
  = ((if negb (recorded_version db =? CURRENT_VERSION)
      then execute (UPDATE_version_SET CURRENT_VERSION)
      else ret tt) ;;;
     cleanup now) db.
Proof.
  intros H. unfold check_version, CURRENT_VERSION in *.
  cbn [pending UPDATES].
  destruct (Z.ltb_spec (recorded_version db) 1) as [|_]; [lia|].
  reflexivity.
Qed.

Lemma recorded_version_high (db : database) :
  CURRENT_VERSION <= recorded_version db ->
  exists v vs, version_table db = Some (v :: vs) /\ recorded_version db = v.
Proof.
  unfold recorded_version, CURRENT_VERSION.
  destruct (version_table db) as [[|v vs]|]; try lia. eauto.
Qed.

(** X11. The version check on an arbitrary store.  It succeeds exactly on a
    store with neither table and on a store that records a version of at
    least [CURRENT_VERSION] and has [cache].  When it succeeds the store
    records [CURRENT_VERSION] (a later version is written back to it), has
    both tables, and holds the rows it held that have not expired.  When it
    fails, it fails with [OperationalError]. *)
Theorem check_version_outcome (now : Z) (db : database) :
  (fst (check_version now db) = Ok tt
   <-> (version_table db = None /\ cache_table db = None)
       \/ (CURRENT_VERSION <= recorded_version db /\ cache_table db <> None))
  /\ (fst (check_version now db) = Ok tt ->
      recorded_version (snd (check_version now db)) = CURRENT_VERSION
      /\ schema (snd (check_version now db)) = (true, true)
      /\ (forall r, In r (rows (snd (check_version now db)))
                    <-> In r (rows db) /\ now <= r_expires r))
  /\ (forall e, fst (check_version now db) = Raise e ->
                exists msg, e = OperationalError msg).
Proof.
  destruct (Z.lt_ge_cases (recorded_version db) CURRENT_VERSION) as [Hlow|Hhigh].
  - rewrite (check_version_low now db Hlow).
    destruct db as [[vs|] [rows0|]];
      unfold bind, cleanup; cbn [execute_all execute version_table cache_table bind ret];
      unfold bind; cbn [execute version_table cache_table];
      unfold rows, schema, recorded_version, CURRENT_VERSION in *;
      cbn [fst snd version_table cache_table app map] in *.
    + split; [split; [discriminate | intros [[? _]|[? _]]; [discriminate | lia]]|].
      split; [discriminate|]. intros e H. inversion H. unfold already_exists. eauto.
    + split; [split; [discriminate | intros [[? _]|[_ ?]]; [discriminate | congruence]]|].
      split; [discriminate|]. intros e H. inversion H. unfold already_exists. eauto.
    + split; [split; [discriminate | intros [[_ ?]|[? _]]; [discriminate | lia]]|].
      split; [discriminate|]. intros e H. inversion H. unfold already_exists. eauto.
    + unfold delete_cache. cbn [cache_table version_table prepare with_column cache_column
                                  String.eqb Ascii.eqb Bool.eqb filter fst snd].
      split; [split; [auto | reflexivity]|].
      split; [|discriminate].
      intros _. split; [reflexivity|]. split; [reflexivity|].
      intros r. simpl. tauto.
  - rewrite (check_version_high now db Hhigh).
    destruct (recorded_version_high db Hhigh) as [v [vs [Hv Hrec]]].
    unfold bind.
    assert (Hstep : exists vs',
               (if negb (recorded_version db =? CURRENT_VERSION)
                then execute (UPDATE_version_SET CURRENT_VERSION)
                else ret tt) db
               = (Ok tt, mkDb (Some (CURRENT_VERSION :: vs')) (cache_table db))).
    { destruct (Z.eqb_spec (recorded_version db) CURRENT_VERSION) as [E|_]; cbn [negb].
      - exists vs. unfold ret. destruct db as [vt ct]. cbn [version_table cache_table] in *.
        subst vt. congruence.
      - exists (map (fun _ => CURRENT_VERSION) vs). cbn [execute]. rewrite Hv. reflexivity. }
    destruct Hstep as [vs' ->].
    destruct (cache_table db) as [rows0|] eqn:Hc.
    + rewrite (cleanup_rows now (mkDb (Some (CURRENT_VERSION :: vs')) (Some rows0)) rows0 eq_refl).
      cbn [fst snd version_table].
      split; [split; [intros _; right; split; [exact Hhigh | discriminate] | reflexivity]|].
      split; [|discriminate].
      intros _. split; [reflexivity|]. split; [reflexivity|].
      intros r. unfold rows. cbn [cache_table]. rewrite Hc, filter_In, Z.leb_le. reflexivity.
    + unfold cleanup. cbn [execute]. unfold delete_cache. cbn [cache_table fst snd].
      split; [split; [discriminate | intros [[? _]|[_ ?]]; congruence]|].
      split; [discriminate|]. intros e H. inversion H. unfold no_such_table. eauto.
Qed.

Lemma check_version_outcome_witness :
  fst (check_version 1700000005
         (mkDb (Some [2]) (Some [mkRow "a" None (Some 7) None 1700000005;
                                 mkRow "b" None (Some 8) None 1700000004])))
  = Ok tt
  /\ recorded_version
       (snd (check_version 1700000005
               (mkDb (Some [2]) (Some [mkRow "a" None (Some 7) None 1700000005;
                                       mkRow "b" None (Some 8) None 1700000004]))))
     = CURRENT_VERSION.
Proof.
  split; [reflexivity|].
  exact (proj1 (proj1 (proj2 (check_version_outcome 1700000005
                                (mkDb (Some [2])
                                   (Some [mkRow "a" None (Some 7) None 1700000005;
                                          mkRow "b" None (Some 8) None 1700000004]))))
                  eq_refl)).
Defined.

(** ** Keys of one namespace *)

(** X12. Within one accessor and section, two keys share a full key only
    if they have the same text: distinct text keys never share a row. *)
Theorem full_key_injective (self : NewCache) (section : atom) (k1 k2 : atom) :
  is_not_None k1 = true ->
  is_not_None k2 = true ->
  _get_key self k1 section = _get_key self k2 section ->
  str k1 = str k2.
Proof.
  intros H1 H2 E.
  rewrite <- (_reverse_key_str self k1 section H1), <- (_reverse_key_str self k2 section H2).
  now rewrite E.
Qed.

Lemma full_key_injective_witness :
  is_not_None (AInt 42) = true
  /\ is_not_None (AStr "42") = true
  /\ _get_key (mkNewCache DEFAULT_EXPIRES (AStr "api")) (AInt 42) (AStr "idsToName")
     = _get_key (mkNewCache DEFAULT_EXPIRES (AStr "api")) (AStr "42") (AStr "idsToName")
  /\ str (AInt 42) = str (AStr "42").
Proof.
  split; [reflexivity|]. split; [reflexivity|]. split; [reflexivity|].
  exact (full_key_injective (mkNewCache DEFAULT_EXPIRES (AStr "api")) (AStr "idsToName")
           (AInt 42) (AStr "42") eq_refl eq_refl eq_refl).
Defined.

(** ** Reading a batch *)

Lemma atom_eqb_eq (a b : atom) : atom_eqb a b = true <-> a = b.
Proof.
  destruct a, b; simpl; try (split; [discriminate | intros H; inversion H]).
  - tauto.
  - rewrite Z.eqb_eq. split; [now intros -> | now intros [= ->]].
  - rewrite String.eqb_eq. split; [now intros -> | now intros [= ->]].
Qed.

Lemma atom_eqb_refl (a : atom) : atom_eqb a a = true.
Proof. now apply atom_eqb_eq. Qed.

Lemma atom_eqb_neq (a b : atom) : a <> b -> atom_eqb a b = false.
Proof.
  intros H. destruct (atom_eqb a b) eqn:E; [|reflexivity].
  apply atom_eqb_eq in E. contradiction.
Qed.

Lemma dict_get_set_same (d : pydict) (k : atom) (v : pyval) :
  dict_get (dict_set d k v) k = Some v.
Proof.
  induction d as [|[k' v'] d IH]; cbn [dict_set dict_get].
  - now rewrite atom_eqb_refl.
  - destruct (atom_eqb k' k) eqn:E; cbn [dict_get]; rewrite E; [reflexivity | exact IH].
Qed.

Lemma dict_get_set_other (d : pydict) (k a : atom) (v : pyval) :
  k <> a -> dict_get (dict_set d k v) a = dict_get d a.
Proof.
  intros Hne. induction d as [|[k' v'] d IH]; cbn [dict_set dict_get].
  - now rewrite (atom_eqb_neq k a Hne).
  - destruct (atom_eqb k' k) eqn:E; cbn [dict_get].
    + apply atom_eqb_eq in E. subst k'. now rewrite (atom_eqb_neq k a Hne).
    + now rewrite IH.
Qed.

Lemma dict_contains_get (d : pydict) (a : atom) :
  dict_contains a d = true <-> dict_get d a <> None.
Proof.
  unfold dict_contains. induction d as [|[k v] d IH]; cbn [existsb dict_get fst].
  - split; [discriminate | congruence].
  - destruct (atom_eqb k a); cbn [orb]; [split; [discriminate | reflexivity] | exact IH].
Qed.

Lemma atom_eq_dec (a b : atom) : {a = b} + {a <> b}.
Proof.
  destruct (atom_eqb a b) eqn:E; [left; now apply atom_eqb_eq|].
  right. intros ->. now rewrite atom_eqb_refl in E.
Qed.

(** The mapping the loop of [get_many] builds, key by key. *)
Lemma collect_other {R : Runtime} (self : NewCache) (section : atom) (rs : list row)
    (data d : pydict) (a : atom) :
  collect self section rs data = Ok d ->
  ~ In a (map (logical_key self section) rs) ->
  dict_get d a = dict_get data a.
Proof.
  revert data. induction rs as [|r rs IH]; intros data; cbn [collect map In].
  - now intros [= ->].
  - destruct (to_python (row_fields r)) as [v|]; [|discriminate].
    intros H Hn. rewrite (IH _ H) by tauto.
    apply dict_get_set_other. unfold logical_key in Hn. tauto.
Qed.

Lemma collect_found {R : Runtime} (self : NewCache) (section : atom) (rs : list row)
    (data d : pydict) (r : row) :
  collect self section rs data = Ok d ->
  NoDup (map (logical_key self section) rs) ->
  In r rs ->
  exists v, to_python (row_fields r) = Ok v
            /\ dict_get d (logical_key self section r) = Some v.
Proof.
  revert data. induction rs as [|x rs IH]; intros data; cbn [collect map In];
    [contradiction|].
  destruct (to_python (row_fields x)) as [vx|] eqn:Ex; [|discriminate].
  intros H Hnd [->|Hin].
  - exists vx. split; [exact Ex|].
    inversion Hnd as [|? ? Hx _]; subst.
    rewrite (collect_other self section rs _ d _ H Hx).
    apply dict_get_set_same.
  - inversion Hnd; subst. eapply IH; eassumption.
Qed.

Lemma collect_keys {R : Runtime} (self : NewCache) (section : atom) (rs : list row)
    (data d : pydict) (a : atom) :
  collect self section rs data = Ok d ->
  dict_get d a <> None ->
  dict_get data a <> None \/ In a (map (logical_key self section) rs).
Proof.
  intros H Ha.
  destruct (in_dec atom_eq_dec a (map (logical_key self section) rs)) as [Hin|Hn].
  - now right.
  - left. now rewrite <- (collect_other self section rs data d a H Hn).
Qed.

Lemma select_keys (ks : list string) (db : database) (rows0 : list row) :
  cache_table db = Some rows0 ->
  exists sel,
    select_cache (WIn "key" (map SText ks)) db = Ok sel
    /\ (forall r, In r sel <-> In r rows0 /\ In (r_key r) ks)
    /\ (NoDup (map r_key rows0) -> NoDup (map r_key sel)).
Proof.
  intros H. unfold select_cache. rewrite H, prepare_key_in. eexists.
  split; [reflexivity|]. split.
  - intros r. rewrite filter_In, key_in_texts. reflexivity.
  - apply NoDup_map_filter.
Qed.

(** The rows a batch selects are filed under the text of the keys asked. *)
Lemma selected_logical_key (self : NewCache) (section : atom) (keys : list atom) (r : row) :
  Forall (fun k => is_not_None k = true) keys ->
  In (r_key r) (map (fun k => _get_key self k section) keys) ->
  exists k, In k keys
            /\ r_key r = _get_key self k section
            /\ logical_key self section r = AStr (str k).
Proof.
  intros Hk Hin. apply in_map_iff in Hin as [k [E Hin]].
  exists k. split; [exact Hin|]. split; [now symmetry|].
  rewrite Forall_forall in Hk. unfold logical_key.
  now rewrite <- E, (_reverse_key_str self k section (Hk k Hin)).
Qed.

Lemma NoDup_map_inj_on {A B C : Type} (f : A -> B) (g : A -> C) (l : list A) :
  (forall x y, In x l -> In y l -> g x = g y -> f x = f y) ->
  NoDup (map f l) -> NoDup (map g l).
Proof.
  induction l as [|x l IH]; simpl; intros Hinj Hnd; [constructor|].
  inversion Hnd as [|? ? Hx Hl]; subst. constructor.
  - intros Hin. apply Hx. apply in_map_iff in Hin as [y [E Hy]].
    apply in_map_iff. exists y. split; [|exact Hy].
    symmetry. apply Hinj; auto.
  - apply IH; auto.
Qed.

Lemma get_many_spec {R : Runtime} (self : NewCache) (keys : list atom) (section : atom)
    (now : Z) (db : database) (d : pydict) :
  Forall (fun k => is_not_None k = true) keys ->
  get_many self keys section false now db = Ok d ->
  exists sel,
    (forall r, In r sel <->
               In r (rows db) /\ In (r_key r) (map (fun k => _get_key self k section) keys))
    /\ collect self section sel [] = Ok d
    /\ (unique_keys db -> NoDup (map (logical_key self section) sel)).
Proof.
  intros Hk H. unfold get_many in H.
  destruct (cache_table db) as [rows0|] eqn:Hc.
  - rewrite <- (map_map (fun k => _get_key self k section) SText) in H.
    destruct (select_keys (map (fun k => _get_key self k section) keys) db rows0 Hc)
      as [sel [Hs [Hin Hnd]]].
    rewrite Hs in H. exists sel.
    unfold unique_keys, rows. rewrite Hc.
    split; [exact Hin|]. split; [exact H|].
    intros Hu. apply (NoDup_map_inj_on r_key); [|auto].
    intros x y Hx Hy E. apply Hin in Hx as [_ Hx]. apply Hin in Hy as [_ Hy].
    destruct (selected_logical_key self section keys x Hk Hx) as [kx [Hkx [Ex Lx]]].
    destruct (selected_logical_key self section keys y Hk Hy) as [ky [Hky [Ey Ly]]].
    rewrite Lx, Ly in E. injection E as E.
    rewrite Forall_forall in Hk.
    rewrite Ex, Ey.
    rewrite (_get_key_split self kx section (Hk kx Hkx)).
    rewrite (_get_key_split self ky section (Hk ky Hky)).
    now rewrite E.
  - unfold select_cache in H. rewrite Hc in H. discriminate.
Qed.

Lemma dict_get_set_some (d : pydict) (k a : atom) (v : pyval) :
  dict_get d a <> None -> dict_get (dict_set d k v) a <> None.
Proof.
  intros H. destruct (atom_eq_dec k a) as [->|Hne].
  - rewrite dict_get_set_same. discriminate.
  - now rewrite dict_get_set_other.
Qed.

Lemma collect_keeps {R : Runtime} (self : NewCache) (section : atom) (rs : list row)
    (data d : pydict) (a : atom) :
  collect self section rs data = Ok d ->
  dict_get data a <> None -> dict_get d a <> None.
Proof.
  revert data. induction rs as [|r rs IH]; intros data; cbn [collect].
  - now intros [= ->].
  - destruct (to_python (row_fields r)); [|discriminate].
    intros H Ha. apply (IH _ H). now apply dict_get_set_some.
Qed.

Lemma collect_has {R : Runtime} (self : NewCache) (section : atom) (rs : list row)
    (data d : pydict) (r : row) :
  collect self section rs data = Ok d ->
  In r rs -> dict_get d (logical_key self section r) <> None.
Proof.
  revert data. induction rs as [|x rs IH]; intros data; cbn [collect In]; [contradiction|].
  destruct (to_python (row_fields x)); [|discriminate].
  intros H [->|Hin].
  - apply (collect_keeps self section rs _ d _ H).
    unfold logical_key. rewrite dict_get_set_same. discriminate.
  - eapply IH; eassumption.
Qed.

Lemma collect_total {R : Runtime} (self : NewCache) (section : atom) (rs : list row)
    (data : pydict) :
  Forall (fun r => exists v, to_python (row_fields r) = Ok v) rs ->
  exists d, collect self section rs data = Ok d.
Proof.
  intros H. revert data. induction H as [|r rs [v Hv] _ IH]; intros data; cbn [collect].
  - eauto.
  - rewrite Hv. apply IH.
Qed.

(** X13. What a batch read contains.  When every key asked is a key (not
    [None]) and the read succeeds, the text of a key asked is in the result
    exactly when a row is stored under its full key, and every key of the
    result is the text of a key that was asked and has a row: keys without
    a row are left out, and nothing else is returned. *)
Theorem get_many_contains {R : Runtime} (self : NewCache) (keys : list atom)
    (section : atom) (now : Z) (db : database) (d : pydict) :
  Forall (fun k => is_not_None k = true) keys ->
  get_many self keys section false now db = Ok d ->
  (forall k, In k keys ->
     (dict_contains (AStr (str k)) d = true
      <-> has_key (_get_key self k section) (rows db) = true))
  /\ (forall a, dict_contains a d = true ->
        exists k, In k keys /\ a = AStr (str k)
                  /\ has_key (_get_key self k section) (rows db) = true).
Proof.
  intros Hk H.
  destruct (get_many_spec self keys section now db d Hk H) as [sel [Hsel [Hc _]]].
  assert (Hall : forall a, dict_contains a d = true ->
            exists k, In k keys /\ a = AStr (str k)
                      /\ has_key (_get_key self k section) (rows db) = true).
  { intros a Ha. apply dict_contains_get in Ha.
    destruct (collect_keys self section sel [] d a Hc Ha) as [Hd|Hin];
      [now elim Hd|].
    apply in_map_iff in Hin as [r [<- Hr]]. apply Hsel in Hr as [Hr Hf].
    destruct (selected_logical_key self section keys r Hk Hf) as [k [Hin [Ek El]]].
    exists k. split; [exact Hin|]. split; [exact El|].
    apply has_key_In. rewrite <- Ek. now apply in_map. }
  split; [|exact Hall].
  intros k Hin. split.
  - intros Ha. destruct (Hall _ Ha) as [k' [Hin' [E Hh]]].
    injection E as E. rewrite Forall_forall in Hk.
    rewrite (_get_key_split self k section (Hk k Hin)), E,
      <- (_get_key_split self k' section (Hk k' Hin')).
    exact Hh.
  - intros Hh. apply has_key_In, in_map_iff in Hh as [r [Er Hr]].
    assert (Hs : In r sel).
    { apply Hsel. split; [exact Hr|]. rewrite Er.
      apply in_map_iff. eauto. }
    apply dict_contains_get.
    pose proof (collect_has self section sel [] d r Hc Hs) as Hd.
    unfold logical_key in Hd. rewrite Forall_forall in Hk.
    now rewrite Er, (_reverse_key_str self k section (Hk k Hin)) in Hd.
Qed.

Lemma get_many_contains_witness :
  Forall (fun k => is_not_None k = true) [AStr "a"; AStr "b"; AStr "c"]
  /\ get_many (R := Python3) (mkNewCache DEFAULT_EXPIRES (AStr "api"))
       [AStr "a"; AStr "b"; AStr "c"] (AStr "s") false 1700000000
       (mkDb (Some [1]) (Some [mkRow "api:s:a" None None (Some "foo") 1700003600;
                               mkRow "api:s:b" None (Some 7) None 1700003600]))
     = Ok [(AStr "a", PyStr "foo"); (AStr "b", PyInt 7)]
  /\ (dict_contains (AStr (str (AStr "c"))) [(AStr "a", PyStr "foo"); (AStr "b", PyInt 7)]
      = true
      <-> has_key (_get_key (mkNewCache DEFAULT_EXPIRES (AStr "api")) (AStr "c") (AStr "s"))
            (rows (mkDb (Some [1])
                     (Some [mkRow "api:s:a" None None (Some "foo") 1700003600;
                            mkRow "api:s:b" None (Some 7) None 1700003600])))
          = true).
Proof.
  assert (Hk : Forall (fun k => is_not_None k = true) [AStr "a"; AStr "b"; AStr "c"]).
  { repeat constructor. }
  split; [exact Hk|]. split; [reflexivity|].
  apply (proj1 (get_many_contains (R := Python3) (mkNewCache DEFAULT_EXPIRES (AStr "api"))
                  [AStr "a"; AStr "b"; AStr "c"] (AStr "s") 1700000000
                  (mkDb (Some [1]) (Some [mkRow "api:s:a" None None (Some "foo") 1700003600;
                                          mkRow "api:s:b" None (Some 7) None 1700003600]))
                  [(AStr "a", PyStr "foo"); (AStr "b", PyInt 7)] Hk eq_refl)).
  right. right. now left.
Defined.

Lemma get_many_lookup {R : Runtime} (self : NewCache) (keys : list atom)
    (section : atom) (now : Z) (db : database) (d : pydict) (k : atom) (r : row) :
  unique_keys db ->
  Forall (fun k => is_not_None k = true) keys ->
  get_many self keys section false now db = Ok d ->
  In k keys -> In r (rows db) -> r_key r = _get_key self k section ->
  exists v, to_python (row_fields r) = Ok v /\ dict_get d (AStr (str k)) = Some v.
Proof.
  intros Hu Hk H Hin Hr Er.
  destruct (get_many_spec self keys section now db d Hk H) as [sel [Hsel [Hc Hnd]]].
  assert (Hs : In r sel).
  { apply Hsel. split; [exact Hr|]. rewrite Er.
      apply in_map_iff. eauto. }
  destruct (collect_found self section sel [] d r Hc (Hnd Hu) Hs) as [v [Hv Hd]].
  exists v. split; [exact Hv|].
  unfold logical_key in Hd. rewrite Forall_forall in Hk.
  now rewrite Er, (_reverse_key_str self k section (Hk k Hin)) in Hd.
Qed.

(** X14. The values of a batch read.  On a store with distinct keys, a
    batch read that succeeds maps the text of each key asked that has a row
    to the decoded value of that row. *)
Theorem get_many_values {R : Runtime} (self : NewCache) (keys : list atom)
    (section : atom) (now : Z) (db : database) (d : pydict) (k : atom) (r : row) :
  unique_keys db ->
  Forall (fun k => is_not_None k = true) keys ->
  get_many self keys section false now db = Ok d ->
  In k keys ->
  In r (rows db) ->
  r_key r = _get_key self k section ->
  exists v, to_python (row_fields r) = Ok v /\ dict_get d (AStr (str k)) = Some v.
Proof. apply get_many_lookup. Qed.

Lemma get_many_values_witness :
  unique_keys (mkDb (Some [1]) (Some [mkRow "api:s:a" None None (Some "foo") 1700003600;
                                      mkRow "api:s:b" None (Some 7) None 1700003600]))
  /\ Forall (fun k => is_not_None k = true) [AStr "a"; AStr "b"; AStr "c"]
  /\ get_many (R := Python3) (mkNewCache DEFAULT_EXPIRES (AStr "api"))
       [AStr "a"; AStr "b"; AStr "c"] (AStr "s") false 1700000000
       (mkDb (Some [1]) (Some [mkRow "api:s:a" None None (Some "foo") 1700003600;
                               mkRow "api:s:b" None (Some 7) None 1700003600]))
     = Ok [(AStr "a", PyStr "foo"); (AStr "b", PyInt 7)]
  /\ exists v,
       to_python (R := Python3)
         (row_fields (mkRow "api:s:b" None (Some 7) None 1700003600)) = Ok v
       /\ dict_get [(AStr "a", PyStr "foo"); (AStr "b", PyInt 7)] (AStr (str (AStr "b")))
          = Some v.
Proof.
  assert (Hu : unique_keys
                 (mkDb (Some [1]) (Some [mkRow "api:s:a" None None (Some "foo") 1700003600;
                                         mkRow "api:s:b" None (Some 7) None 1700003600]))).
  { unfold unique_keys. simpl. repeat constructor; simpl; intuition discriminate. }
  assert (Hk : Forall (fun k => is_not_None k = true) [AStr "a"; AStr "b"; AStr "c"]).
  { repeat constructor. }
  split; [exact Hu|]. split; [exact Hk|]. split; [reflexivity|].
  apply (get_many_values (R := Python3) (mkNewCache DEFAULT_EXPIRES (AStr "api"))
           [AStr "a"; AStr "b"; AStr "c"] (AStr "s") 1700000000 _ _ (AStr "b") _ Hu Hk
           eq_refl).
  - right. now left.
  - right. now left.
  - reflexivity.
Defined.

(** X15. A batch written is a batch read back.  On a store with distinct
    keys, after a [set_many] that succeeds, [get_many] of the same keys
    succeeds and maps the text of every key to the value written for it. *)
Theorem set_many_then_get_many {R : Runtime} (self : NewCache) (data : pydict)
    (expires : expiry) (section : atom) (now now' : Z) (db db' : database) :
  PY2 = false ->
  (forall w, pickle_loads (pickle_dumps w) = Ok w) ->
  unique_keys db ->
  Forall (fun kv => is_not_None (fst kv) = true) data ->
  set_many self data expires section now db = (Ok tt, db') ->
  exists d,
    get_many self (map fst data) section false now' db' = Ok d
    /\ (forall k v, In (k, v) data -> dict_get d (AStr (str k)) = Some v).
Proof.
  intros Hpy Hrt Hu Hk Hs.
  assert (Hkeys : Forall (fun k => is_not_None k = true) (map fst data)).
  { apply Forall_map. exact Hk. }
  destruct (_get_expiry self expires) as [e|x] eqn:He;
    [|unfold set_many in Hs; rewrite He in Hs; inversion Hs].
  pose proof (set_many_ok_rows self data expires section now e db db' He Hs) as Hrows.
  pose proof (set_many_unique_keys self data expires section now db Hu) as Hu'.
  rewrite Hs in Hu'. cbn [snd] in Hu'.
  assert (Hsucc : exists d, get_many self (map fst data) section false now' db' = Ok d).
  { unfold get_many.
    destruct (cache_table db') as [rows'|] eqn:Hc.
    - rewrite <- (map_map (fun k => _get_key self k section) SText).
      destruct (select_keys (map (fun k => _get_key self k section) (map fst data))
                  db' rows' Hc) as [sel [-> [Hin _]]].
      apply collect_total. apply Forall_forall. intros r Hr.
      apply Hin in Hr as [Hr Hf].
      apply in_map_iff in Hf as [k [Ek Hf]]. apply in_map_iff in Hf as [[k' v] [<- Hkv]].
      cbn [fst] in Ek. specialize (Hrows k' v Hkv).
      assert (E : r = parameters self k' v (resolve now e) section).
      { unfold unique_keys, rows in Hu'. unfold rows in Hrows. rewrite Hc in Hu', Hrows.
        apply (same_key_same_row rows'); auto. now rewrite parameters_key. }
      exists v. rewrite E, parameters_fields. now apply decode_encode.
    - destruct data as [|[k v] data].
      + exfalso.
        apply (set_many_ok_run self [] expires section now e db db' He) in Hs.
        destruct Hs as [Hs _]. unfold set_many_run, bind in Hs.
        cbn [map execute] in Hs. unfold delete_cache in Hs.
        destruct (cache_table db) eqn:Hcd.
        * rewrite prepare_key_in in Hs. cbn [execute_all ret] in Hs.
          inversion Hs; subst. discriminate.
        * inversion Hs.
      + specialize (Hrows k v (or_introl eq_refl)).
        unfold rows in Hrows. rewrite Hc in Hrows. contradiction. }
  destruct Hsucc as [d Hd]. exists d. split; [exact Hd|].
  intros k v Hkv.
  destruct (get_many_lookup self (map fst data) section now' db' d k
              (parameters self k v (resolve now e) section) Hu' Hkeys Hd)
    as [v' [Hv' Hg]].
  - apply in_map_iff. exists (k, v). split; [reflexivity | exact Hkv].
  - now apply Hrows.
  - apply parameters_key.
  - rewrite parameters_fields, (decode_encode v Hpy Hrt) in Hv'. now inversion Hv'; subst.
Qed.

Lemma set_many_then_get_many_witness :
  @PY2 Python3 = false
  /\ (forall w, @pickle_loads Python3 (@pickle_dumps Python3 w) = Ok w)
  /\ unique_keys (opened 1700000000)
  /\ Forall (fun kv : atom * pyval => is_not_None (fst kv) = true)
       [(AStr "a", PyStr "foo"); (AStr "b", PyInt 7)]
  /\ fst (set_many (R := Python3) (mkNewCache DEFAULT_EXPIRES ANone)
            [(AStr "a", PyStr "foo"); (AStr "b", PyInt 7)] (Expires 3600) ANone
            1700000000 (opened 1700000000))
     = Ok tt
  /\ exists d,
       get_many (R := Python3) (mkNewCache DEFAULT_EXPIRES ANone)
         (map fst [(AStr "a", PyStr "foo"); (AStr "b", PyInt 7)]) ANone false 1700000001
         (snd (set_many (R := Python3) (mkNewCache DEFAULT_EXPIRES ANone)
                 [(AStr "a", PyStr "foo"); (AStr "b", PyInt 7)] (Expires 3600) ANone
                 1700000000 (opened 1700000000)))
       = Ok d
       /\ (forall k v, In (k, v) [(AStr "a", PyStr "foo"); (AStr "b", PyInt 7)] ->
                       dict_get d (AStr (str k)) = Some v).
Proof.
  assert (Hu : unique_keys (opened 1700000000)) by constructor.
  assert (Hk : Forall (fun kv : atom * pyval => is_not_None (fst kv) = true)
                 [(AStr "a", PyStr "foo"); (AStr "b", PyInt 7)]).
  { repeat constructor. }
  split; [reflexivity|]. split; [exact pickle_loads_dumps|]. split; [exact Hu|].
  split; [exact Hk|]. split; [reflexivity|].
  exact (set_many_then_get_many (R := Python3) (mkNewCache DEFAULT_EXPIRES ANone)
           [(AStr "a", PyStr "foo"); (AStr "b", PyInt 7)] (Expires 3600) ANone
           1700000000 1700000001 (opened 1700000000) _ eq_refl pickle_loads_dumps Hu Hk
           eq_refl).
Defined.

(** ** Writing under a prefix or a section *)



(** ** Settings *)

(** X18. Reading a setting raises [OperationalError] for every key, every
    registered default and every store: [__getitem__] asks the cache with
    [allowExpired]. *)
Theorem settings_getitem_raises {R : Runtime} (INT_MAX : Z) (self : Settings.Settings)
    (key : atom) (now : Z) (db : database) :
  exists msg, Settings.__getitem__ INT_MAX self key now db = Raise (OperationalError msg).
Proof.
  unfold Settings.__getitem__, get, select_cache.
  destruct (cache_table db); eexists; reflexivity.
Qed.

Lemma settings_set_is_cache_set {R : Runtime} (INT_MAX : Z) (self : Settings.Settings)
    (key : atom) (value : pyval) (now : Z) (db db' : database) :
  Settings.__setitem__ INT_MAX self key value now db = (Settings.Done, db') ->
  value <> PyNone
  /\ set (Settings._cache INT_MAX) key value DEFAULT_EXPIRES (Settings.section self) now db
     = (Ok tt, db').
Proof.
  unfold Settings.__setitem__.
  destruct value; try discriminate;
    (destruct (set _ _ _ _ _ _ _) as [[[]|e] d]; intros H; inversion H; subst;
     split; [discriminate | reflexivity]).
Qed.

(** X19. A setting that was written is kept by every sweep up to
    [INT_MAX]: when [INT_MAX] exceeds a week it is stored as the absolute
    expiry, and on a store with distinct keys the row of a setting written
    by [__setitem__] survives the sweep at any time [t <= INT_MAX]. *)
Theorem settings_never_swept {R : Runtime} (INT_MAX : Z) (self : Settings.Settings)
    (key : atom) (value : pyval) (now t : Z) (db db' : database) :
  week < INT_MAX ->
  t <= INT_MAX ->
  unique_keys db ->
  Settings.__setitem__ INT_MAX self key value now db = (Settings.Done, db') ->
  has_key (_get_key (Settings._cache INT_MAX) key (Settings.section self))
    (rows (snd (cleanup t db'))) = true.
Proof.
  intros Hw Ht Hu Hs.
  apply settings_set_is_cache_set in Hs as [_ Hs].
  apply (set_row_swept_iff (Settings._cache INT_MAX) key value DEFAULT_EXPIRES
           (Settings.section self) now INT_MAX t db db' eq_refl Hu Hs).
  now rewrite resolve_absolute.
Qed.

Lemma settings_never_swept_witness :
  week < 9223372036854775807
  /\ 1700000000 + 86400 * 365 * 100 <= 9223372036854775807
  /\ unique_keys (opened 1700000000)
  /\ Settings.__setitem__ (R := Python3) 9223372036854775807
       (Settings.mkSettings [] (AStr "jumpbridge")) (AStr "url") (PyStr "http://jb")
       1700000000 (opened 1700000000)
     = (Settings.Done,
        mkDb (Some [1])
          (Some [mkRow "jumpbridge:url" None None (Some "http://jb") 9223372036854775807]))
  /\ has_key (_get_key (Settings._cache 9223372036854775807) (AStr "url") (AStr "jumpbridge"))
       (rows (snd (cleanup (1700000000 + 86400 * 365 * 100)
                     (mkDb (Some [1])
                        (Some [mkRow "jumpbridge:url" None None (Some "http://jb")
                                 9223372036854775807]))))) = true.
Proof.
  assert (Hu : unique_keys (opened 1700000000)) by constructor.
  split; [reflexivity|]. split; [discriminate|]. split; [exact Hu|]. split; [reflexivity|].
  apply (settings_never_swept (R := Python3) 9223372036854775807
           (Settings.mkSettings [] (AStr "jumpbridge")) (AStr "url") (PyStr "http://jb")
           1700000000 (1700000000 + 86400 * 365 * 100) (opened 1700000000) _).
  - reflexivity.
  - discriminate.
  - exact Hu.
  - reflexivity.
Defined.

(** X20. A setting can be written once.  For a [Settings] object with a
    section, after [__setitem__] has stored a value under a key, a second
    [__setitem__] on that key, with a value whose integers fit SQLite's 64
    bits, ends in [IntegrityError] and the first row stays; and assigning
    [None], which is meant to delete, ends in [NameError] without touching
    the store. *)
Theorem settings_written_once {R : Runtime} (INT_MAX : Z) (self : Settings.Settings)
    (key : atom) (value value' : pyval) (now now' : Z) (db db' : database) :
  is_not_None (Settings.section self) = true ->
  is_not_None key = true ->
  value' <> PyNone ->
  set_fits key value' INT_MAX = true ->
  Settings.__setitem__ INT_MAX self key value now db = (Settings.Done, db') ->
  fst (Settings.__setitem__ INT_MAX self key value' now' db')
  = Settings.Failed (IntegrityError "UNIQUE constraint failed: cache.key")
  /\ has_key (_get_key (Settings._cache INT_MAX) key (Settings.section self))
       (rows (snd (Settings.__setitem__ INT_MAX self key value' now' db'))) = true
  /\ Settings.__setitem__ INT_MAX self key PyNone now' db'
     = (Settings.NameError "section", db').
Proof.
  intros Hsec Hk Hv Hf Hs.
  apply settings_set_is_cache_set in Hs as [_ Hs].
  pose proof (set_ok_row (Settings._cache INT_MAX) key value DEFAULT_EXPIRES
                (Settings.section self) now INT_MAX db db' eq_refl Hs) as Hin.
  assert (Hh : has_key (_get_key (Settings._cache INT_MAX) key (Settings.section self))
                 (rows db') = true).
  { apply has_key_In. rewrite <- (parameters_key (Settings._cache INT_MAX) key value
                                     (resolve now INT_MAX) (Settings.section self)).
    now apply in_map. }
  assert (Hp : _get_key (Settings._cache INT_MAX) (AStr "") (Settings.section self) <> "").
  { unfold _get_key, Settings._cache. cbn [_key_prefix filter is_not_None].
    rewrite Hsec. cbn [map String.concat str].
    destruct (str (Settings.section self)); discriminate. }
  destruct (set_existing_under_prefix_raises (Settings._cache INT_MAX) key value'
              DEFAULT_EXPIRES (Settings.section self) now' INT_MAX db' eq_refl Hf Hk Hp Hh)
    as [Hr Hkeep].
  unfold Settings.__setitem__.
  destruct (set (Settings._cache INT_MAX) key value' DEFAULT_EXPIRES
              (Settings.section self) now' db') as [res d] eqn:E.
  cbn [fst snd] in Hr, Hkeep. subst res.
  split; [|split; [|reflexivity]]; destruct value'; try contradiction; auto.
Qed.

Lemma settings_written_once_witness :
  is_not_None (Settings.section (Settings.mkSettings [] (AStr "global"))) = true
  /\ is_not_None (AStr "theme") = true
  /\ PyStr "light" <> PyNone
  /\ set_fits (R := Python3) (AStr "theme") (PyStr "light") 9223372036854775807 = true
  /\ Settings.__setitem__ (R := Python3) 9223372036854775807
       (Settings.mkSettings [] (AStr "global")) (AStr "theme") (PyStr "dark")
       1700000000 (opened 1700000000)
     = (Settings.Done,
        mkDb (Some [1])
          (Some [mkRow "global:theme" None None (Some "dark") 9223372036854775807]))
  /\ fst (Settings.__setitem__ (R := Python3) 9223372036854775807
            (Settings.mkSettings [] (AStr "global")) (AStr "theme") (PyStr "light")
            1700000060
            (mkDb (Some [1])
               (Some [mkRow "global:theme" None None (Some "dark") 9223372036854775807])))
     = Settings.Failed (IntegrityError "UNIQUE constraint failed: cache.key").
Proof.
  assert (Hv : PyStr "light" <> PyNone) by discriminate.
  split; [reflexivity|]. split; [reflexivity|]. split; [exact Hv|]. split; [reflexivity|].
  split; [reflexivity|].
  exact (proj1 (settings_written_once (R := Python3) 9223372036854775807
                  (Settings.mkSettings [] (AStr "global")) (AStr "theme") (PyStr "dark")
                  (PyStr "light") 1700000000 1700000060 (opened 1700000000) _
                  eq_refl eq_refl Hv eq_refl eq_refl)).
Defined.

(** ** The connection of an accessor *)

Lemma truthy_some (p : option string) :
  Handle.truthy p = true -> exists s, p = Some s /\ s <> "".
Proof.
  destruct p as [s|]; simpl; [|discriminate].
  intros H. exists s. split; [reflexivity|].
  apply negb_true_iff, String.eqb_neq in H. exact H.
Qed.

(** X21. [conn] raises [CacheNotInitializedException] exactly when the
    accessor has no connection yet and neither its own path nor the path
    of the class is set; in that case nothing changes. *)
Theorem conn_not_initialized (now : Z) (st : Handle.state) :
  (fst (Handle.conn now st) = Handle.Raised Handle.CacheNotInitializedException
   <-> Handle.self_conn st = None
       /\ Handle.truthy (Handle.self_path st) = false
       /\ Handle.truthy (Handle.cls_path st) = false)
  /\ (fst (Handle.conn now st) = Handle.Raised Handle.CacheNotInitializedException ->
      snd (Handle.conn now st) = st).
Proof.
  unfold Handle.conn.
  destruct (Handle.self_conn st) as [c|] eqn:Hc.
  - split; [split; [discriminate | intros [? _]; discriminate] | discriminate].
  - destruct (Handle.truthy (Handle.self_path st)) eqn:Hs;
      destruct (Handle.truthy (Handle.cls_path st)) eqn:Hg; cbn [negb andb];
      try (split; [split; [intros _; repeat split | intros _; reflexivity]
                  |intros _; reflexivity]);
      (match goal with
       | |- (fst ?x = _ <-> _) /\ _ =>
           assert (Hne : fst x <> Handle.Raised Handle.CacheNotInitializedException)
       end;
       [destruct (Handle._get_connection st (Handle.self_path st));
        [destruct (negb _); [destruct (check_version _ _) as [[[]|e] d]|]|];
        discriminate
       |split; [split; [intros H; contradiction | intros [_ [H1 H2]]; discriminate]
               |intros H; contradiction]]).
Qed.

Lemma conn_not_initialized_witness :
  fst (Handle.conn 1700000000 (Handle.mkState None (Some "") None (fun _ => fresh)))
  = Handle.Raised Handle.CacheNotInitializedException
  /\ snd (Handle.conn 1700000000 (Handle.mkState None (Some "") None (fun _ => fresh)))
     = Handle.mkState None (Some "") None (fun _ => fresh).
Proof.
  split; [reflexivity|].
  exact (proj2 (conn_not_initialized 1700000000
                  (Handle.mkState None (Some "") None (fun _ => fresh))) eq_refl).
Defined.

Lemma conn_keeps_connection (now : Z) (st : Handle.state) :
  (forall c, fst (Handle.conn now st) = Handle.Connected c ->
             Handle.self_conn (snd (Handle.conn now st)) = Some c)
  /\ (forall e, fst (Handle.conn now st) = Handle.Raised (Handle.Sqlite e) ->
                exists c, Handle.self_conn (snd (Handle.conn now st)) = Some c).
Proof.
  unfold Handle.conn.
  destruct (Handle.self_conn st) as [c0|] eqn:Hc.
  - cbn [fst snd]. split; [intros c [= <-]; exact Hc | discriminate].
  - destruct (Handle.truthy (Handle.self_path st)) eqn:Hs;
      destruct (Handle.truthy (Handle.cls_path st)) eqn:Hg; cbn [negb andb];
      try (cbn [fst snd]; split; discriminate);
      unfold Handle._get_connection; rewrite Hs;
      repeat match goal with
        | H : Handle.truthy ?p = true |- _ =>
            apply truthy_some in H; destruct H as [? [H ?]]; try rewrite H
        end;
      (destruct (negb _);
       [destruct (check_version _ _) as [[[]|e1] d]|];
       cbn [fst snd Handle.write_file Handle.self_conn];
       split; try discriminate;
       first [intros c [= <-]; reflexivity | intros e _; eauto]).
Qed.

(** X22. The version check runs at most once per accessor.  Once [conn]
    has opened a connection, also when the version check it ran failed,
    the next [conn] returns that connection and changes nothing. *)
Theorem conn_opened_once (now now' : Z) (st : Handle.state) :
  (forall c, fst (Handle.conn now st) = Handle.Connected c ->
             Handle.conn now' (snd (Handle.conn now st))
             = (Handle.Connected c, snd (Handle.conn now st)))
  /\ (forall e, fst (Handle.conn now st) = Handle.Raised (Handle.Sqlite e) ->
                exists c, Handle.conn now' (snd (Handle.conn now st))
                          = (Handle.Connected c, snd (Handle.conn now st))).
Proof.
  destruct (conn_keeps_connection now st) as [H1 H2]. split.
  - intros c H. apply H1 in H. unfold Handle.conn at 1. now rewrite H.
  - intros e H. apply H2 in H as [c H]. exists c. unfold Handle.conn at 1. now rewrite H.
Qed.

Lemma conn_opened_once_witness :
  fst (Handle.conn 1700000000
         (Handle.mkState None (Some "s.sqlite3") None (fun _ => mkDb (Some []) None)))
  = Handle.Raised (Handle.Sqlite (OperationalError "table version already exists"))
  /\ exists c,
       Handle.conn 1700000060
         (snd (Handle.conn 1700000000
                 (Handle.mkState None (Some "s.sqlite3") None
                    (fun _ => mkDb (Some []) None))))
       = (Handle.Connected c,
          snd (Handle.conn 1700000000
                 (Handle.mkState None (Some "s.sqlite3") None
                    (fun _ => mkDb (Some []) None)))).
Proof.
  split; [reflexivity|].
  exact (proj2 (conn_opened_once 1700000000 1700000060
                  (Handle.mkState None (Some "s.sqlite3") None
                     (fun _ => mkDb (Some []) None))) _ eq_refl).
Defined.

(** X23. An accessor built without [override_path] is not taken for a
    user of the global store once the class has a path: its first [conn]
    connects to the file of the class and runs the version check, with the
    sweep, on it. *)
Theorem conn_default_accessor_checks (now : Z) (st : Handle.state) (p : string) :
  Handle.self_conn st = None ->
  Handle.self_path st = None ->
  Handle.cls_path st = Some p ->
  p <> "" ->
  Handle.uses_global st = false
  /\ Handle.files (snd (Handle.conn now st)) p
     = snd (check_version now (Handle.files st p))
  /\ Handle.self_conn (snd (Handle.conn now st)) = Some p
  /\ (fst (Handle.conn now st) = Handle.Connected p
      <-> fst (check_version now (Handle.files st p)) = Ok tt).
Proof.
  intros Hc Hs Hg Hp.
  assert (Ht : Handle.truthy (Some p) = true).
  { simpl. now apply negb_true_iff, String.eqb_neq. }
  unfold Handle.conn, Handle.uses_global, Handle._get_connection.
  rewrite Hc, Hs, Hg, Ht. cbn [Handle.truthy negb andb Handle.path_eqb
                                 Handle.self_path Handle.cls_path Handle.files].
  split; [reflexivity|].
  destruct (check_version now (Handle.files st p)) as [[[]|e] d];
    cbn [fst snd Handle.write_file Handle.files Handle.self_conn];
    rewrite String.eqb_refl; repeat split; discriminate.
Qed.

Lemma conn_default_accessor_checks_witness :
  Handle.self_conn (Handle.mkState (Some "test.sqlite") None None (fun _ => fresh)) = None
  /\ "test.sqlite" <> ""
  /\ Handle.conn 1700000000 (Handle.mkState (Some "test.sqlite") None None (fun _ => fresh))
     = (Handle.Connected "test.sqlite",
        snd (Handle.conn 1700000000
               (Handle.mkState (Some "test.sqlite") None None (fun _ => fresh))))
  /\ Handle.files
       (snd (Handle.conn 1700000000
               (Handle.mkState (Some "test.sqlite") None None (fun _ => fresh))))
       "test.sqlite"
     = snd (check_version 1700000000 fresh).
Proof.
  assert (Hp : "test.sqlite" <> "") by discriminate.
  split; [reflexivity|]. split; [exact Hp|]. split; [reflexivity|].
  exact (proj1 (proj2 (conn_default_accessor_checks 1700000000
                         (Handle.mkState (Some "test.sqlite") None None (fun _ => fresh))
                         "test.sqlite" eq_refl eq_refl eq_refl Hp))).
Defined.
